(** * Excel visualizer: the data-shaping logic of [HomePage] (src/unnamed/part_000)

    A shallow embedding of the pure parts of the page component
    (workbook alignment, column-type detection, search, sort, chart
    aggregation) and of the React state it threads through its event
    handlers and effects.

    Modelling conventions.
    - A JavaScript string is a [string] of ASCII characters; [toLowerCase]
      and [trim] are modelled on that alphabet.
    - A JavaScript number held in a cell is an integer ([Z]); sums and
      differences are exact (no floating-point rounding).
    - [Number(s)] on a string is the ECMAScript StringToNumber: a string
      made only of white space reads as [0]; every other string is handed to
      a parser [Number_str] (result [None] = NaN), kept abstract where the
      proofs allow it.  [new Date(s)] validity is an abstract predicate. *)

From Stdlib Require Import String Ascii List ZArith Lia Bool Arith Permutation Sorted.
Import ListNotations.
Open Scope string_scope.
Open Scope nat_scope.

(* ------------------------------------------------------------------ *)
(** ** JavaScript string primitives (ASCII model) *)

Definition ascii_lower (c : ascii) : ascii :=
  let n := nat_of_ascii c in
  if (65 <=? n) && (n <=? 90) then ascii_of_nat (n + 32) else c.

(** [String.prototype.toLowerCase]. *)
Fixpoint toLowerCase (s : string) : string :=
  match s with
  | EmptyString => EmptyString
  | String c s' => String (ascii_lower c) (toLowerCase s')
  end.

(** JavaScript white space recognised by [trim] (ASCII part). *)
Definition js_space (c : ascii) : bool :=
  let n := nat_of_ascii c in
  (n =? 32) || (n =? 9) || (n =? 10) || (n =? 11) || (n =? 12) || (n =? 13).

Fixpoint trim_start (s : string) : string :=
  match s with
  | EmptyString => EmptyString
  | String c s' => if js_space c then trim_start s' else s
  end.

Fixpoint rev_string (s : string) : string :=
  match s with
  | EmptyString => EmptyString
  | String c s' => rev_string s' ++ String c EmptyString
  end.

(** [String.prototype.trim]. *)
Definition trim (s : string) : string :=
  rev_string (trim_start (rev_string (trim_start s))).

(** [String.prototype.startsWith] at position 0. *)
Fixpoint starts_with (p s : string) : bool :=
  match p, s with
  | EmptyString, _ => true
  | String c p', String d s' => Ascii.eqb c d && starts_with p' s'
  | String _ _, EmptyString => false
  end.

(** [String.prototype.includes]. *)
Fixpoint includes (s q : string) : bool :=
  match s with
  | EmptyString => starts_with q s
  | String _ s' => starts_with q s || includes s' q
  end.

(** [String.prototype.endsWith] (case-sensitive). *)
Definition endsWith (s suffix : string) : bool :=
  starts_with (rev_string suffix) (rev_string s).

(** [a < b] on strings: lexicographic on character codes. *)
Fixpoint str_lt (a b : string) : bool :=
  match a, b with
  | EmptyString, EmptyString => false
  | EmptyString, String _ _ => true
  | String _ _, EmptyString => false
  | String c a', String d b' =>
      let x := nat_of_ascii c in let y := nat_of_ascii d in
      if x <? y then true else if y <? x then false else str_lt a' b'
  end.

(** Decimal digits of a natural number, used by [String(n)]. *)
Fixpoint digits_aux (fuel : nat) (n : nat) (acc : string) : string :=
  match fuel with
  | O => acc
  | S f =>
      let acc' := String (ascii_of_nat (48 + n mod 10)) acc in
      if n <? 10 then acc' else digits_aux f (n / 10) acc'
  end.

Definition nat_to_string (n : nat) : string := digits_aux (S n) n EmptyString.

(** [String(z)] for an integer-valued number. *)
Definition Z_to_string (z : Z) : string :=
  match z with
  | Z0 => "0"
  | Zpos p => nat_to_string (Pos.to_nat p)
  | Zneg p => String "-" (nat_to_string (Pos.to_nat p))
  end.

(* ------------------------------------------------------------------ *)
(** ** Cells *)

(** A cell of [ParsedSheet.rows]: [string | number | null]. *)
Inductive cell :=
| CNull
| CStr (s : string)
| CNum (z : Z).

(** [(cell ?? "").toString()] and [String(cell)] for a present cell. *)
Definition cell_toString (c : cell) : string :=
  match c with
  | CNull => ""
  | CStr s => s
  | CNum z => Z_to_string z
  end.

Definition is_null (c : cell) : bool :=
  match c with CNull => true | _ => false end.

Definition Row := list cell.

(** [row[i]] read on a row.  Rows are aligned to the headers and every
    index the component reads comes from the headers, so reads stay in
    range; the default is never used by the code paths modelled here. *)
Definition cell_at (r : Row) (i : nat) : cell := nth i r CNull.

(* ------------------------------------------------------------------ *)
(** ** Search (processedRows, lines 189-200) *)

(** [row.some(cell => (cell ?? "").toString().toLowerCase().includes(q))] *)
Definition row_matches (q : string) (r : Row) : bool :=
  existsb (fun c => includes (toLowerCase (cell_toString c)) q) r.

(** [if (searchQuery.trim()) { const q = searchQuery.toLowerCase();
    rows = rows.filter(...) }] *)
Definition search_rows (searchQuery : string) (rows : list Row) : list Row :=
  match trim searchQuery with
  | EmptyString => rows
  | _ => let q := toLowerCase searchQuery in filter (row_matches q) rows
  end.

(* ------------------------------------------------------------------ *)
(** ** Sheets, sort directions, column types (lines 16-24) *)

Record ParsedSheet := mkSheet {
  name : string;
  headers : list string;
  rows : list Row
}.

Inductive SortDirection := Asc | Desc.

Inductive ColumnType := Numeric | Categorical | Date | Unknown.

Definition ColumnType_eqb (a b : ColumnType) : bool :=
  match a, b with
  | Numeric, Numeric | Categorical, Categorical | Date, Date
  | Unknown, Unknown => true
  | _, _ => false
  end.

(** [findIndex(t => t === ty)] as an option ([None] for [-1]). *)
Fixpoint findIndex (ty : ColumnType) (l : list ColumnType) : option nat :=
  match l with
  | [] => None
  | t :: l' =>
      if ColumnType_eqb t ty then Some 0
      else option_map S (findIndex ty l')
  end.

(* ------------------------------------------------------------------ *)
(** ** Stable sort ([Array.prototype.sort], stable since ES2019)

    For a consistent comparator the result of a stable sort is unique;
    we compute it by insertion sort.  [x] goes in front of the first
    element it does not compare greater than, so equal elements keep
    their input order. *)

Section StableSort.
Context {A : Type} (cmp : A -> A -> Z).

Fixpoint insert_by (x : A) (l : list A) : list A :=
  match l with
  | [] => [x]
  | y :: l' => if (cmp x y <=? 0)%Z then x :: l else y :: insert_by x l'
  end.

Definition sort_by (l : list A) : list A := fold_right insert_by [] l.

End StableSort.

(* ------------------------------------------------------------------ *)
(** ** [Number(...)] *)

Section Pipeline.

(** StringToNumber on the trimmed, non-empty content of a string
    ([None] is NaN). *)
Context (Number_str : string -> option Z).

(** [Number(v)] for a cell: [Number(null)] is [0]; a string of white
    space only is [0]. *)
Definition Number (c : cell) : option Z :=
  match c with
  | CNull => Some 0%Z
  | CNum z => Some z
  | CStr s =>
      match trim s with
      | EmptyString => Some 0%Z
      | t => Number_str t
      end
  end.

Definition not_NaN (c : cell) : bool :=
  match Number c with Some _ => true | None => false end.

(* ------------------------------------------------------------------ *)
(** ** Sort comparator (processedRows, lines 203-230) *)

Definition compare_cells (sortDirection : SortDirection) (aVal bVal : cell) : Z :=
  let asc := match sortDirection with Asc => true | Desc => false end in
  match aVal, bVal with
  | CNull, CNull => 0
  | CNull, _ => if asc then (-1)%Z else 1%Z
  | _, CNull => if asc then 1%Z else (-1)%Z
  | _, _ =>
      match Number aVal, Number bVal with
      | Some aNum, Some bNum => if asc then (aNum - bNum)%Z else (bNum - aNum)%Z
      | _, _ =>
          let aStr := toLowerCase (cell_toString aVal) in
          let bStr := toLowerCase (cell_toString bVal) in
          if String.eqb aStr bStr then 0%Z
          else if asc then (if str_lt aStr bStr then (-1)%Z else 1%Z)
          else (if str_lt bStr aStr then (-1)%Z else 1%Z)
      end
  end.

Definition compare_rows (sortColumnIndex : nat) (sortDirection : SortDirection)
    (a b : Row) : Z :=
  compare_cells sortDirection (cell_at a sortColumnIndex) (cell_at b sortColumnIndex).

Definition sort_rows (sortColumnIndex : nat) (sortDirection : SortDirection)
    (rows : list Row) : list Row :=
  sort_by (compare_rows sortColumnIndex sortDirection) rows.

(** [processedRows]: search, then sort when both a column and a direction
    are set. *)
Definition processedRows (activeSheet : option ParsedSheet) (searchQuery : string)
    (sortColumnIndex : option nat) (sortDirection : option SortDirection) : list Row :=
  match activeSheet with
  | None => []
  | Some sh =>
      let rs := search_rows searchQuery (rows sh) in
      match sortColumnIndex, sortDirection with
      | Some c, Some d => sort_rows c d rs
      | _, _ => rs
      end
  end.

(* ------------------------------------------------------------------ *)
(** ** Chart aggregation (chartData, lines 269-300) *)

Record ChartDatum := mkDatum { category : string; value : Z }.

(** [groupMap.set(key, (groupMap.get(key) ?? 0) + num)] on an
    insertion-ordered [Map]. *)
Fixpoint group_add (key : string) (num : Z) (m : list (string * Z)) : list (string * Z) :=
  match m with
  | [] => [(key, num)]
  | (k, s) :: m' =>
      if String.eqb k key then (k, (s + num)%Z) :: m' else (k, s) :: group_add key num m'
  end.

(** [catRaw === null || catRaw === undefined || catRaw === ""] *)
Definition skip_category (catRaw : cell) : bool :=
  match catRaw with
  | CNull => true
  | CStr EmptyString => true
  | _ => false
  end.

(** One iteration of [for (const row of activeSheet.rows)]. *)
Definition chart_step (ci vi : nat) (groupMap : list (string * Z)) (row : Row) :=
  let catRaw := cell_at row ci in
  let valRaw := cell_at row vi in
  if skip_category catRaw then groupMap
  else match Number valRaw with
       | None => groupMap
       | Some num => group_add (cell_toString catRaw) num groupMap
       end.

Definition groupMap (ci vi : nat) (rs : list Row) : list (string * Z) :=
  fold_left (chart_step ci vi) rs [].

Definition chartData (activeSheet : option ParsedSheet)
    (chartCategoryIndex chartValueIndex : option nat) : list ChartDatum :=
  match activeSheet, chartCategoryIndex, chartValueIndex with
  | Some sh, Some ci, Some vi =>
      let entries := map (fun '(k, v) => mkDatum k v) (groupMap ci vi (rows sh)) in
      firstn 25 (sort_by (fun a b => (value b - value a)%Z) entries)
  | _, _, _ => []
  end.

(* ------------------------------------------------------------------ *)
(** ** Column type detection (columnTypes, lines 126-159) *)

(** [!Number.isNaN(new Date(s).getTime())]. *)
Context (Date_valid : string -> bool).

(** [unique.add(s)] on a [Set<string>]. *)
Definition set_add (s : string) (u : list string) : list string :=
  if existsb (String.eqb s) u then u else s :: u.

(** The filter [v !== null && v !== undefined && v !== ""]. *)
Definition kept_value (v : cell) : bool :=
  match v with
  | CNull => false
  | CStr EmptyString => false
  | _ => true
  end.

(** The loop body over [colValues], on (numericCount, dateCount, unique). *)
Definition classify_step (acc : nat * nat * list string) (val : cell) :=
  let '(numericCount, dateCount, unique) := acc in
  let s := trim (cell_toString val) in
  let unique' := set_add s unique in
  let numericCount' :=
    if not_NaN (CStr s) && negb (String.eqb s "") then S numericCount else numericCount in
  let dateCount' := if Date_valid s then S dateCount else dateCount in
  (numericCount', dateCount', unique').

(** [x / length > 0.6], compared exactly as [5 * x > 3 * length]. *)
Definition ratio_gt_06 (x len : nat) : bool := 3 * len <? 5 * x.

Definition column_values (rs : list Row) (colIdx : nat) : list cell :=
  filter kept_value (map (fun row => cell_at row colIdx) rs).

Definition columnType (rs : list Row) (colIdx : nat) : ColumnType :=
  let colValues := column_values rs colIdx in
  match colValues with
  | [] => Unknown
  | _ =>
      let '(numericCount, dateCount, unique) := fold_left classify_step colValues (0, 0, []) in
      let length := List.length colValues in
      if ratio_gt_06 dateCount length then Date
      else if ratio_gt_06 numericCount length then Numeric
      else if List.length unique <=? Nat.min 20 length then Categorical
      else Unknown
  end.

Definition columnTypes (activeSheet : option ParsedSheet) : list ColumnType :=
  match activeSheet with
  | None => []
  | Some sh => map (columnType (rows sh)) (seq 0 (List.length (headers sh)))
  end.

End Pipeline.

(* ------------------------------------------------------------------ *)
(** ** Workbook alignment (handleFileChange, lines 88-109)

    [XLSX.utils.sheet_to_json(ws, {header: 1, blankrows: false})] returns
    an array of row arrays.  Without [defval], a blank cell is not written,
    so a row array may have holes.  A raw value is what the library stores
    in a cell. *)

Inductive jsval := JUndefined | JNull | JStr (s : string) | JNum (z : Z).

(** An element of a JavaScript array: a hole or a value. *)
Inductive slot (A : Type) := Hole | Val (a : A).
Arguments Hole {A}.
Arguments Val {A} a.

(** [a[i]]: a hole or an index past the end reads [undefined] ([None]). *)
Fixpoint array_get {A} (a : list (slot A)) (i : nat) : option A :=
  match a, i with
  | [], _ => None
  | Hole :: _, O => None
  | Val x :: _, O => Some x
  | _ :: a', S i' => array_get a' i'
  end.

(** [Array.prototype.map(f)]: the callback runs on present elements only;
    holes stay holes and the length is kept. *)
Fixpoint array_map_from {A B} (f : A -> nat -> B) (k : nat) (a : list (slot A)) : list (slot B) :=
  match a with
  | [] => []
  | Hole :: a' => Hole :: array_map_from f (S k) a'
  | Val x :: a' => Val (f x k) :: array_map_from f (S k) a'
  end.

Definition array_map {A B} (f : A -> nat -> B) (a : list (slot A)) : list (slot B) :=
  array_map_from f 0 a.

(** [String(h ?? "").trim()] *)
Definition header_of (h : jsval) : string :=
  match h with
  | JUndefined | JNull => ""
  | JStr s => trim s
  | JNum z => trim (Z_to_string z)
  end.

(** [row[index] ?? null] *)
Definition cell_of (v : option jsval) : cell :=
  match v with
  | None | Some JUndefined | Some JNull => CNull
  | Some (JStr s) => CStr s
  | Some (JNum z) => CNum z
  end.

(** The [headers] and [rows] built from [sheetData]. *)
Definition parse_headers (sheetData : list (list (slot jsval))) : list (slot string) :=
  array_map (fun h _ => header_of h)
    (match sheetData with [] => [] | h :: _ => h end).

Definition parse_rows (sheetData : list (list (slot jsval))) : list (list (slot cell)) :=
  let hs := parse_headers sheetData in
  map (fun row => array_map (fun _ index => cell_of (array_get row index)) hs)
    (tl sheetData).

(* ------------------------------------------------------------------ *)
(** ** Concrete parsers used to evaluate examples *)

Fixpoint digits_value (s : string) (acc : Z) : option Z :=
  match s with
  | EmptyString => Some acc
  | String c s' =>
      let n := nat_of_ascii c in
      if (48 <=? n) && (n <=? 57) then digits_value s' (acc * 10 + Z.of_nat (n - 48))%Z
      else None
  end.

(** StringToNumber restricted to signed decimal integer literals. *)
Definition int_Number_str (s : string) : option Z :=
  match s with
  | EmptyString => Some 0%Z
  | String c rest =>
      if Ascii.eqb c "-"%char then
        match rest with EmptyString => None | _ => option_map Z.opp (digits_value rest 0) end
      else if Ascii.eqb c "+"%char then
        match rest with EmptyString => None | _ => digits_value rest 0 end
      else digits_value s 0
  end.

Definition is_digit (c : ascii) : bool :=
  let n := nat_of_ascii c in (48 <=? n) && (n <=? 57).

(** A sample date test, used only to evaluate examples: it accepts the
    date-only form [YYYY-MM-DD], a subset of what [new Date(s)] accepts
    (engines also accept other forms, e.g. V8 reads ["10"] as a date).
    The theorems are stated for every date test; this one only
    instantiates them in witnesses and examples. *)
Definition iso_Date_valid (s : string) : bool :=
  match list_ascii_of_string s with
  | [y1; y2; y3; y4; d1; m1; m2; d2; a1; a2] =>
      forallb is_digit [y1; y2; y3; y4; m1; m2; a1; a2]
      && Ascii.eqb d1 "-"%char && Ascii.eqb d2 "-"%char
  | _ => false
  end.

(* ------------------------------------------------------------------ *)
(** ** Component state, handlers and effects (lines 27-266)

    A state is the value of every [useState] hook after a commit, plus
    the dependency values each [useEffect] saw at the last commit.  The
    sheet objects of one loaded workbook are identified by a generation
    number bumped on every [setSheets], so that [activeSheet] changes
    identity when a new workbook arrives. *)

Inductive TabId := TabTable | TabInsights.

Record View := mkView {
  searchQuery : string;
  sortColumnIndex : option nat;
  sortDirection : option SortDirection;
  columnVisibility : list bool;
  activeTab : TabId;
  chartCategoryIndex : option nat;
  chartValueIndex : option nat
}.

Record UI := mkUI {
  sheets : list ParsedSheet;
  generation : nat;
  activeSheetIndex : nat;
  fileName : option string;
  error : option string;
  view : View;
  deps_reset : nat * nat;
  deps_chart : option (nat * nat)
}.

Definition msg_unsupported : string :=
  "Please upload an Excel (.xlsx / .xls) or CSV file.".
Definition msg_parse : string :=
  "Failed to parse file. Please check the file format.".

Definition with_view (st : UI) (v : View) : UI :=
  mkUI (sheets st) (generation st) (activeSheetIndex st) (fileName st) (error st) v
    (deps_reset st) (deps_chart st).

Definition setError (e : option string) (st : UI) : UI :=
  mkUI (sheets st) (generation st) (activeSheetIndex st) (fileName st) e (view st)
    (deps_reset st) (deps_chart st).

Definition setFileName (f : option string) (st : UI) : UI :=
  mkUI (sheets st) (generation st) (activeSheetIndex st) f (error st) (view st)
    (deps_reset st) (deps_chart st).

Definition setActiveSheetIndex (i : nat) (st : UI) : UI :=
  mkUI (sheets st) (generation st) i (fileName st) (error st) (view st)
    (deps_reset st) (deps_chart st).

(** [setSheets(parsedSheets)]: fresh sheet objects. *)
Definition setSheets (ps : list ParsedSheet) (st : UI) : UI :=
  mkUI ps (S (generation st)) (activeSheetIndex st) (fileName st) (error st) (view st)
    (deps_reset st) (deps_chart st).

Definition setSort (c : option nat) (d : option SortDirection) (v : View) : View :=
  mkView (searchQuery v) c d (columnVisibility v) (activeTab v)
    (chartCategoryIndex v) (chartValueIndex v).

Definition setSortDirection (d : option SortDirection) (v : View) : View :=
  setSort (sortColumnIndex v) d v.

Definition setSearchQuery (q : string) (v : View) : View :=
  mkView q (sortColumnIndex v) (sortDirection v) (columnVisibility v) (activeTab v)
    (chartCategoryIndex v) (chartValueIndex v).

Definition setColumnVisibility (cv : list bool) (v : View) : View :=
  mkView (searchQuery v) (sortColumnIndex v) (sortDirection v) cv (activeTab v)
    (chartCategoryIndex v) (chartValueIndex v).

Definition setActiveTab (t : TabId) (v : View) : View :=
  mkView (searchQuery v) (sortColumnIndex v) (sortDirection v) (columnVisibility v) t
    (chartCategoryIndex v) (chartValueIndex v).

Definition setChartAxes (c w : option nat) (v : View) : View :=
  mkView (searchQuery v) (sortColumnIndex v) (sortDirection v) (columnVisibility v)
    (activeTab v) c w.

Definition activeSheet (st : UI) : option ParsedSheet :=
  nth_error (sheets st) (activeSheetIndex st).

(** The identity of the [activeSheet] object ([undefined] is [None]). *)
Definition activeSheet_id (st : UI) : option (nat * nat) :=
  match activeSheet st with
  | Some _ => Some (generation st, activeSheetIndex st)
  | None => None
  end.

(** [toggleSort] (lines 243-257). *)
Definition toggleSort (index : nat) (v : View) : View :=
  match sortColumnIndex v with
  | Some c =>
      if c =? index then
        match sortDirection v with
        | Some Asc => setSortDirection (Some Desc) v
        | Some Desc => setSort None None v
        | None => setSortDirection (Some Asc) v
        end
      else setSort (Some index) (Some Asc) v
  | None => setSort (Some index) (Some Asc) v
  end.

(** [copy[index] = !copy[index]]; an assignment past the end extends the
    array, and the holes it leaves read as falsy. *)
Fixpoint flip_at (index : nat) (l : list bool) : list bool :=
  match l, index with
  | [], O => [true]
  | [], S i => false :: flip_at i []
  | b :: l', O => negb b :: l'
  | b :: l', S i => b :: flip_at i l'
  end.

(** [toggleColumn] (lines 259-266). *)
Definition toggleColumn (index : nat) (v : View) : View :=
  match columnVisibility v with
  | [] => v
  | prev => setColumnVisibility (flip_at index prev) v
  end.

(** [handleFileChange] up to [reader.readAsBinaryString(file)] (lines 62-120);
    the boolean says whether a read was started. *)
Definition handleFileChange (file : option string) (st : UI) : UI * bool :=
  let st := setError None st in
  match file with
  | None => (st, false)
  | Some nm =>
      if negb (endsWith nm ".xlsx") && negb (endsWith nm ".xls")
         && negb (endsWith nm ".csv")
      then (setError (Some msg_unsupported) st, false)
      else (setFileName (Some nm) st, true)
  end.

(** [reader.onload]: [None] when reading or parsing throws. *)
Definition onload (result : option (list ParsedSheet)) (st : UI) : UI :=
  match result with
  | None => setError (Some msg_parse) st
  | Some parsedSheets => setActiveSheetIndex 0 (setSheets parsedSheets st)
  end.

Section Effects.
Context (Number_str : string -> option Z) (Date_valid : string -> bool).

(** The body of the sheet-change effect (lines 48-60). *)
Definition reset_effect (st : UI) (v : View) : View :=
  let cv := match activeSheet st with
            | Some sh => repeat true (List.length (headers sh))
            | None => []
            end in
  mkView "" None None cv TabTable None None.

(** The body of the default-axes effect (lines 162-181). *)
Definition chart_effect (st : UI) (v : View) : View :=
  match activeSheet st with
  | None => v
  | Some sh =>
      match columnTypes Number_str Date_valid (Some sh) with
      | [] => v
      | cts => setChartAxes (findIndex Categorical cts) (findIndex Numeric cts) v
      end
  end.

Definition pair_eqb (a b : nat * nat) : bool :=
  (fst a =? fst b) && (snd a =? snd b).

Definition opt_pair_eqb (a b : option (nat * nat)) : bool :=
  match a, b with
  | None, None => true
  | Some x, Some y => pair_eqb x y
  | _, _ => false
  end.

(** A commit: every effect whose dependency list changed runs, in
    declaration order.  The reset effect depends on
    [[activeSheetIndex, sheets.length]]; the default-axes effect on
    [[activeSheet, columnTypes]], where [columnTypes] is memoised on
    [activeSheet] and so changes exactly when [activeSheet] does.  The
    state updates the effects make leave both dependency lists unchanged,
    so the next render runs no effect. *)
Definition commit (st : UI) : UI :=
  let d1 := (activeSheetIndex st, List.length (sheets st)) in
  let d2 := activeSheet_id st in
  let v1 := if pair_eqb (deps_reset st) d1 then view st else reset_effect st (view st) in
  let v2 := if opt_pair_eqb (deps_chart st) d2 then v1 else chart_effect st v1 in
  mkUI (sheets st) (generation st) (activeSheetIndex st) (fileName st) (error st) v2 d1 d2.

(** First render: the [useState] initial values, then every effect runs. *)
Definition initial : UI :=
  let st0 := mkUI [] 0 0 None None (mkView "" None None [] TabTable None None) (0, 0) None in
  let v := chart_effect st0 (reset_effect st0 (view st0)) in
  mkUI [] 0 0 None None v (0, 0) None.

(** The user actions the page handles. *)
Inductive Event :=
| EToggleSort (index : nat)
| ESearch (q : string)
| ESelectSheet (index : nat)
| EToggleColumn (index : nat)
| EShowAll
| ETab (t : TabId)
| EChartCategory (index : nat)
| EChartValue (index : nat)
| EFileChange (file : option string)
| ELoad (result : option (list ParsedSheet)).

Definition handle (e : Event) (st : UI) : UI :=
  match e with
  | EToggleSort i => with_view st (toggleSort i (view st))
  | ESearch q => with_view st (setSearchQuery q (view st))
  | ESelectSheet i => setActiveSheetIndex i st
  | EToggleColumn i => with_view st (toggleColumn i (view st))
  | EShowAll =>
      match activeSheet st with
      | Some sh => with_view st (setColumnVisibility (repeat true (List.length (headers sh))) (view st))
      | None => st
      end
  | ETab t => with_view st (setActiveTab t (view st))
  | EChartCategory i =>
      with_view st (setChartAxes (Some i) (chartValueIndex (view st)) (view st))
  | EChartValue i =>
      with_view st (setChartAxes (chartCategoryIndex (view st)) (Some i) (view st))
  | EFileChange f => fst (handleFileChange f st)
  | ELoad r => onload r st
  end.

Definition dispatch (e : Event) (st : UI) : UI := commit (handle e st).

Inductive reachable : UI -> Prop :=
| reach_init : reachable initial
| reach_step e st : reachable st -> reachable (dispatch e st).

Fixpoint run (es : list Event) (st : UI) : UI :=
  match es with
  | [] => st
  | e :: es' => run es' (dispatch e st)
  end.

End Effects.

(* ------------------------------------------------------------------ *)
(** ** Readings of the specification, to be compared with the code *)

Section SpecReadings.
Context (Number_str : string -> option Z) (Date_valid : string -> bool).

(** "the cell parses as a number": a number, or a string whose trimmed
    text is a non-empty numeric literal; an absent cell does not parse. *)
Definition parses_as_number (c : cell) : bool :=
  match c with
  | CNull => false
  | CNum _ => true
  | CStr s =>
      match trim s with
      | EmptyString => false
      | t => match Number_str t with Some _ => true | None => false end
      end
  end.

(** Chart aggregation as the specification words it: skip a row whose
    category is absent or empty, or whose value does not parse. *)
Definition chart_step_spec (ci vi : nat) (m : list (string * Z)) (row : Row) :=
  let catRaw := cell_at row ci in
  let valRaw := cell_at row vi in
  if skip_category catRaw || negb (parses_as_number valRaw) then m
  else match Number Number_str valRaw with
       | None => m
       | Some num => group_add (cell_toString catRaw) num m
       end.

Definition chartData_spec (rs : list Row) (ci vi : nat) : list ChartDatum :=
  let entries := map (fun '(k, v) => mkDatum k v) (fold_left (chart_step_spec ci vi) rs []) in
  firstn 25 (sort_by (fun a b => (value b - value a)%Z) entries).

(** The comparator as the specification words it: numeric when both
    present cells parse as numbers, case-insensitive strings otherwise. *)
Definition compare_cells_spec (dir : SortDirection) (aVal bVal : cell) : Z :=
  let asc := match dir with Asc => true | Desc => false end in
  match aVal, bVal with
  | CNull, CNull => 0
  | CNull, _ => if asc then (-1)%Z else 1%Z
  | _, CNull => if asc then 1%Z else (-1)%Z
  | _, _ =>
      match parses_as_number aVal, parses_as_number bVal,
            Number Number_str aVal, Number Number_str bVal with
      | true, true, Some a, Some b => if asc then (a - b)%Z else (b - a)%Z
      | _, _, _, _ =>
          let aStr := toLowerCase (cell_toString aVal) in
          let bStr := toLowerCase (cell_toString bVal) in
          if String.eqb aStr bStr then 0%Z
          else if asc then (if str_lt aStr bStr then (-1)%Z else 1%Z)
          else (if str_lt bStr aStr then (-1)%Z else 1%Z)
      end
  end.

Definition sort_rows_spec (col : nat) (dir : SortDirection) (rs : list Row) : list Row :=
  sort_by (fun a b => compare_cells_spec dir (cell_at a col) (cell_at b col)) rs.

(** Classification as claim C2 words it: ratios over the non-absent values,
    distinct values counted as values; the per-value tests are the code's. *)
Definition cell_eqb (a b : cell) : bool :=
  match a, b with
  | CNull, CNull => true
  | CStr s, CStr t => String.eqb s t
  | CNum x, CNum y => Z.eqb x y
  | _, _ => false
  end.

Fixpoint count_distinct (l : list cell) : nat :=
  match l with
  | [] => 0
  | c :: l' => if existsb (cell_eqb c) l' then count_distinct l' else S (count_distinct l')
  end.

Definition numeric_value (val : cell) : bool :=
  let s := trim (cell_toString val) in
  not_NaN Number_str (CStr s) && negb (String.eqb s "").

Definition date_value (val : cell) : bool := Date_valid (trim (cell_toString val)).

Definition columnType_claim (vals : list cell) : ColumnType :=
  let present := filter (fun v => negb (is_null v)) vals in
  let total := List.length present in
  match present with
  | [] => Unknown
  | _ =>
      if ratio_gt_06 (List.length (filter date_value present)) total then Date
      else if ratio_gt_06 (List.length (filter numeric_value present)) total then Numeric
      else if count_distinct present <=? Nat.min 20 total then Categorical
      else Unknown
  end.

End SpecReadings.

Section SpecReadings2.
Context (Number_str : string -> option Z) (Date_valid : string -> bool).

(** Classification over the values the code keeps (neither absent nor
    [""]), with distinct values counted by their trimmed string form. *)
Definition columnType_amended (vals : list cell) : ColumnType :=
  let present := filter kept_value vals in
  let total := List.length present in
  match present with
  | [] => Unknown
  | _ =>
      if ratio_gt_06 (List.length (filter (date_value Date_valid) present)) total then Date
      else if ratio_gt_06 (List.length (filter (numeric_value Number_str) present)) total
      then Numeric
      else if List.length (nodup string_dec (map (fun v => trim (cell_toString v)) present))
              <=? Nat.min 20 total
      then Categorical
      else Unknown
  end.

(** Every present cell of the column is read as a number by [Number], or
    none is: the comparator then uses one mode for every pair. *)
Definition same_mode (col : nat) (rs : list Row) : bool :=
  forallb (fun r => is_null (cell_at r col) || not_NaN Number_str (cell_at r col)) rs
  || forallb (fun r => is_null (cell_at r col) || negb (not_NaN Number_str (cell_at r col))) rs.

Definition sumZ (l : list Z) : Z := fold_right Z.add 0%Z l.

(** The rows the specification counts: category present and non-empty,
    value parsing as a number. *)
Definition contributes (ci vi : nat) (row : Row) : bool :=
  negb (skip_category (cell_at row ci)) && parses_as_number Number_str (cell_at row vi).

Definition number_or_zero (c : cell) : Z :=
  match Number Number_str c with Some n => n | None => 0%Z end.

Definition contributing_sum (ci vi : nat) (rs : list Row) : Z :=
  sumZ (map (fun r => number_or_zero (cell_at r vi)) (filter (contributes ci vi) rs)).

(** A cell fits mode [m] when it is absent or [Number] reads it as a
    number exactly when [m] is true. *)
Definition mode_ok (m : bool) (c : cell) : Prop :=
  is_null c = true \/ not_NaN Number_str c = m.

(** A blank value cell: absent, or a string of white space only. *)
Definition blank_cell (c : cell) : bool :=
  match c with
  | CNull => true
  | CStr s => String.eqb (trim s) ""
  | CNum _ => false
  end.

Definition blank_string (c : cell) : bool :=
  match c with
  | CStr s => String.eqb (trim s) ""
  | _ => false
  end.

End SpecReadings2.

(** The string branch of the comparator, ascending. *)
Definition str_cmp (a b : string) : Z :=
  if String.eqb a b then 0%Z else if str_lt a b then (-1)%Z else 1%Z.

(** [x] occurs before [y] in [l]. *)
Definition before {A} (x y : A) (l : list A) : Prop :=
  exists i j, i < j /\ nth_error l i = Some x /\ nth_error l j = Some y.

(** [cmp a b <= 0]: [a] may precede [b]. *)
Definition cmp_le {A} (cmp : A -> A -> Z) (a b : A) : Prop := (cmp a b <= 0)%Z.

(** The string a column value is classified and de-duplicated by. *)
Definition value_key (v : cell) : string := trim (cell_toString v).

(** The dependency snapshots agree with the state they were taken from. *)
Definition consistent (st : UI) : Prop :=
  deps_reset st = (activeSheetIndex st, List.length (sheets st))
  /\ deps_chart st = activeSheet_id st.

Definition sort_ok (v : View) : Prop :=
  sortColumnIndex v = None <-> sortDirection v = None.

(* ------------------------------------------------------------------ *)
(** ** Rendering (lines 235-241 and the table, lines 577-632) *)

(** [processedRows.slice(0, 200)]: the rows the table body renders. *)
Definition rowsToDisplay (processedRows : list Row) : list Row := firstn 200 processedRows.

(** [processedRows.length], shown as "Showing N rows after filters". *)
Definition visibleRowCount (processedRows : list Row) : nat := List.length processedRows.

(** [l.filter((_, i) => columnVisibility[i])], indices counted from [k];
    [columnVisibility[i]] past the end is [undefined], which is falsy.  The
    header cells and the cells of each body row are rendered by
    [l.map((x, i) => !columnVisibility[i] ? null : ...)]; React drops the
    [null] entries, which leaves the same elements. *)
Fixpoint filter_visible {A} (columnVisibility : list bool) (k : nat) (l : list A) : list A :=
  match l with
  | [] => []
  | x :: l' =>
      if nth k columnVisibility false then x :: filter_visible columnVisibility (S k) l'
      else filter_visible columnVisibility (S k) l'
  end.

(** [visibleHeaders] (lines 235-238). *)
Definition visibleHeaders (activeSheet : option ParsedSheet) (columnVisibility : list bool)
    : list string :=
  match activeSheet with
  | None => []
  | Some sh => filter_visible columnVisibility 0 (headers sh)
  end.

(** [groupMap.get(key)] on the insertion-ordered map of [chartData]. *)
Fixpoint map_get (key : string) (m : list (string * Z)) : option Z :=
  match m with
  | [] => None
  | (k, v) :: m' => if String.eqb k key then Some v else map_get key m'
  end.

Section GroupRows.
Context (Number_str : string -> option Z).

(** A row of [chartData]'s loop adds to the entry [key]: its category cell
    is not skipped and reads as [key], and [Number] of its value cell is
    not NaN. *)
Definition counted_for (ci vi : nat) (key : string) (row : Row) : bool :=
  negb (skip_category (cell_at row ci))
  && String.eqb (cell_toString (cell_at row ci)) key
  && not_NaN Number_str (cell_at row vi).

End GroupRows.

(* ================================================================== *)
(** * Generic facts *)

Lemma filter_idem {A} (f : A -> bool) (l : list A) :
  filter f (filter f l) = filter f l.
Proof.
  induction l as [|a l IH]; simpl; [reflexivity|].
  destruct (f a) eqn:E; simpl; [rewrite E, IH|]; exact IH || reflexivity.
Qed.

Lemma sumZ_perm (l l' : list Z) : Permutation l l' -> sumZ l = sumZ l'.
Proof.
  induction 1; simpl; try lia.
Qed.

Section SortFacts.
Context {A : Type} (cmp : A -> A -> Z) (P : A -> Prop).
Hypothesis cmp_anti : forall a b, cmp b a = (- cmp a b)%Z.
Hypothesis cmp_trans : forall a b c, P a -> P b -> P c ->
  (cmp a b <= 0)%Z -> (cmp b c <= 0)%Z -> (cmp a c <= 0)%Z.


Lemma insert_by_perm x l : Permutation (insert_by cmp x l) (x :: l).
Proof.
  induction l as [|y l IH]; simpl; [constructor; constructor|].
  destruct (cmp x y <=? 0)%Z; [reflexivity|].
  eapply perm_trans; [apply perm_skip, IH|].
  apply perm_swap.
Qed.

Lemma sort_by_perm l : Permutation (sort_by cmp l) l.
Proof.
  induction l as [|x l IH]; simpl; [constructor|].
  eapply perm_trans; [apply insert_by_perm|].
  apply perm_skip, IH.
Qed.

Lemma insert_by_sorted x l :
  P x -> Forall P l -> StronglySorted (cmp_le cmp) l -> StronglySorted (cmp_le cmp) (insert_by cmp x l).
Proof.
  revert x; induction l as [|y l IH]; intros x Px Pl Sl; simpl.
  - repeat constructor.
  - inversion Pl as [|? ? Py Pl']; subst.
    inversion Sl as [|? ? Sl' Fy]; subst.
    destruct (cmp x y <=? 0)%Z eqn:E.
    + apply Z.leb_le in E. constructor; [exact Sl|].
      constructor; [exact E|].
      rewrite Forall_forall in Fy, Pl' |- *.
      intros z Hz. exact (cmp_trans x y z Px Py (Pl' z Hz) E (Fy z Hz)).
    + apply Z.leb_gt in E. constructor; [apply IH; auto|].
      apply (Permutation_Forall (Permutation_sym (insert_by_perm x l))).
      constructor; [unfold cmp_le; rewrite cmp_anti; lia|exact Fy].
Qed.

Lemma sort_by_sorted l : Forall P l -> StronglySorted (cmp_le cmp) (sort_by cmp l).
Proof.
  induction l as [|x l IH]; intros Pl; simpl; [constructor|].
  inversion Pl; subst. apply insert_by_sorted; auto.
  apply (Permutation_Forall (Permutation_sym (sort_by_perm l))).
  assumption.
Qed.

Lemma sort_by_sorted_id l : StronglySorted (cmp_le cmp) l -> sort_by cmp l = l.
Proof.
  induction l as [|x l IH]; intros S; simpl; [reflexivity|].
  inversion S as [|? ? S' F]; subst. rewrite (IH S').
  destruct l as [|y l']; simpl; [reflexivity|].
  inversion F; subst. destruct (cmp x y <=? 0)%Z eqn:E; [reflexivity|].
  apply Z.leb_gt in E. unfold cmp_le in *. lia.
Qed.

Lemma sort_by_idem l : Forall P l -> sort_by cmp (sort_by cmp l) = sort_by cmp l.
Proof. intros Pl. apply sort_by_sorted_id, sort_by_sorted, Pl. Qed.

Lemma StronglySorted_nth {l i j a b} :
  StronglySorted (cmp_le cmp) l -> i < j -> nth_error l i = Some a -> nth_error l j = Some b -> cmp_le cmp a b.
Proof.
  revert i j. induction l as [|x l IH]; intros i j S Hij Hi Hj; [destruct i; discriminate|].
  inversion S as [|? ? S' F]; subst.
  destruct i as [|i]; destruct j as [|j]; simpl in *; try lia.
  - injection Hi as <-. rewrite Forall_forall in F. apply F.
    eapply nth_error_In; eassumption.
  - apply (IH i j S'); [lia | exact Hi | exact Hj].
Qed.

Lemma sort_by_order l x y :
  Forall P l -> In x l -> In y l -> (cmp x y < 0)%Z ->
  before x y (sort_by cmp l) /\ ~ before y x (sort_by cmp l).
Proof.
  intros Pl Hx Hy Hlt.
  pose proof (sort_by_sorted l Pl) as S.
  assert (Hnot : ~ before y x (sort_by cmp l)).
  { intros (i & j & Hij & Hi & Hj).
    pose proof (StronglySorted_nth S Hij Hi Hj) as Hr. unfold cmp_le in Hr.
    rewrite cmp_anti in Hr. lia. }
  split; [|exact Hnot].
  apply (Permutation_in _ (Permutation_sym (sort_by_perm l))) in Hx, Hy.
  apply In_nth_error in Hx as [j Hj]. apply In_nth_error in Hy as [i Hi].
  destruct (Nat.lt_trichotomy j i) as [Hlt'|[Heq|Hgt]].
  - exists j, i. auto.
  - subst. rewrite Hj in Hi. injection Hi as ->.
    pose proof (cmp_anti y y). lia.
  - exfalso. apply Hnot. exists i, j. auto.
Qed.

End SortFacts.

(* ================================================================== *)
(** * Facts about the JavaScript primitives *)

Lemma nat_of_ascii_inj (c d : ascii) : nat_of_ascii c = nat_of_ascii d -> c = d.
Proof.
  intros H. rewrite <- (ascii_nat_embedding c), <- (ascii_nat_embedding d), H.
  reflexivity.
Qed.

Lemma str_lt_asym a b : str_lt a b = true -> str_lt b a = false.
Proof.
  revert b; induction a as [|c a IH]; intros [|d b]; simpl; try discriminate; auto.
  destruct (nat_of_ascii c <? nat_of_ascii d) eqn:E1;
  destruct (nat_of_ascii d <? nat_of_ascii c) eqn:E2;
  rewrite ?Nat.ltb_lt, ?Nat.ltb_ge in E1, E2; try lia; auto; discriminate.
Qed.

Lemma str_lt_total a b : a <> b -> str_lt a b = true \/ str_lt b a = true.
Proof.
  revert b; induction a as [|c a IH]; intros [|d b] Hne; simpl; auto.
  destruct (nat_of_ascii c <? nat_of_ascii d) eqn:E1; auto.
  destruct (nat_of_ascii d <? nat_of_ascii c) eqn:E2; auto.
  rewrite Nat.ltb_ge in E1, E2.
  assert (c = d) by (apply nat_of_ascii_inj; lia). subst d.
  apply IH. congruence.
Qed.

Lemma str_lt_trans a b c : str_lt a b = true -> str_lt b c = true -> str_lt a c = true.
Proof.
  revert b c; induction a as [|x a IH]; intros [|y b] [|z c]; simpl;
    try discriminate; auto.
  destruct (nat_of_ascii x <? nat_of_ascii y) eqn:E1;
  destruct (nat_of_ascii y <? nat_of_ascii x) eqn:E2;
  destruct (nat_of_ascii y <? nat_of_ascii z) eqn:E3;
  destruct (nat_of_ascii z <? nat_of_ascii y) eqn:E4;
  destruct (nat_of_ascii x <? nat_of_ascii z) eqn:E5;
  destruct (nat_of_ascii z <? nat_of_ascii x) eqn:E6;
  rewrite ?Nat.ltb_lt, ?Nat.ltb_ge in *; try lia; auto; try discriminate.
  apply IH.
Qed.

Lemma filter_length_le {A} (f : A -> bool) l : List.length (filter f l) <= List.length l.
Proof.
  induction l as [|a l IH]; simpl; [lia|]. destruct (f a); simpl; lia.
Qed.

(* ================================================================== *)
(** * The sort comparator *)

Lemma str_cmp_anti (a b : string) :
  (if String.eqb b a then 0 else if str_lt b a then -1 else 1)%Z
  = (- if String.eqb a b then 0 else if str_lt a b then -1 else 1)%Z.
Proof.
  rewrite (String.eqb_sym b a).
  destruct (String.eqb a b) eqn:E; [reflexivity|].
  apply String.eqb_neq in E.
  destruct (str_lt a b) eqn:L1.
  - rewrite (str_lt_asym _ _ L1). reflexivity.
  - destruct (str_lt_total a b E) as [H|H]; [congruence|]. rewrite H. reflexivity.
Qed.

Lemma str_cmp_desc (a b : string) :
  (if String.eqb a b then 0 else if str_lt b a then -1 else 1)%Z
  = (- if String.eqb a b then 0 else if str_lt a b then -1 else 1)%Z.
Proof.
  destruct (String.eqb a b) eqn:E; [reflexivity|].
  apply String.eqb_neq in E.
  destruct (str_lt a b) eqn:L1.
  - rewrite (str_lt_asym _ _ L1). reflexivity.
  - destruct (str_lt_total a b E) as [H|H]; [congruence|]. rewrite H. reflexivity.
Qed.

Section Comparator.
Context (Number_str : string -> option Z).

Ltac cmp_cases :=
  cbn -[Number toLowerCase cell_toString str_lt String.eqb];
  repeat match goal with
  | |- context [ match Number ?N ?c with _ => _ end ] =>
      let E := fresh "E" in destruct (Number N c) eqn:E
  end.

Lemma compare_cells_anti (x y : cell) :
  compare_cells Number_str Asc y x = (- compare_cells Number_str Asc x y)%Z.
Proof.
  destruct x as [|s|z], y as [|t|w]; unfold compare_cells; cmp_cases;
    try reflexivity; try lia; apply str_cmp_anti.
Qed.

Lemma compare_cells_desc (x y : cell) :
  compare_cells Number_str Desc x y = (- compare_cells Number_str Asc x y)%Z.
Proof.
  destruct x as [|s|z], y as [|t|w]; unfold compare_cells; cmp_cases;
    try reflexivity; try lia; apply str_cmp_desc.
Qed.

Lemma compare_cells_null_l y :
  (compare_cells Number_str Asc CNull y <= 0)%Z.
Proof. destruct y; simpl; lia. Qed.

Lemma compare_cells_null_r x :
  is_null x = false -> compare_cells Number_str Asc x CNull = 1%Z.
Proof. destruct x; simpl; congruence. Qed.

Lemma compare_cells_num x y a b :
  is_null x = false -> is_null y = false ->
  Number Number_str x = Some a -> Number Number_str y = Some b ->
  compare_cells Number_str Asc x y = (a - b)%Z.
Proof.
  intros Hx Hy Ha Hb.
  destruct x as [|s|z], y as [|t|w]; try discriminate; unfold compare_cells; cmp_cases;
    congruence.
Qed.

Lemma compare_cells_str x y :
  is_null x = false -> is_null y = false ->
  (Number Number_str x = None \/ Number Number_str y = None) ->
  compare_cells Number_str Asc x y
  = str_cmp (toLowerCase (cell_toString x)) (toLowerCase (cell_toString y)).
Proof.
  intros Hx Hy Hn.
  destruct x as [|s|z], y as [|t|w]; try discriminate; unfold compare_cells, str_cmp;
    cmp_cases; try reflexivity; destruct Hn; congruence.
Qed.

Lemma str_cmp_le a b : (str_cmp a b <= 0)%Z <-> a = b \/ str_lt a b = true.
Proof.
  unfold str_cmp. destruct (String.eqb a b) eqn:E.
  - apply String.eqb_eq in E. split; [auto|lia].
  - apply String.eqb_neq in E. destruct (str_lt a b); split; intros H; try lia; auto.
    destruct H; congruence.
Qed.

Lemma str_cmp_trans a b c :
  (str_cmp a b <= 0)%Z -> (str_cmp b c <= 0)%Z -> (str_cmp a c <= 0)%Z.
Proof.
  rewrite !str_cmp_le. intros [->|H1] [->|H2]; auto.
  right. eapply str_lt_trans; eassumption.
Qed.

Lemma compare_cells_trans m a b c :
  mode_ok Number_str m a -> mode_ok Number_str m b -> mode_ok Number_str m c ->
  (compare_cells Number_str Asc a b <= 0)%Z -> (compare_cells Number_str Asc b c <= 0)%Z ->
  (compare_cells Number_str Asc a c <= 0)%Z.
Proof.
  intros Ma Mb Mc Hab Hbc.
  destruct (is_null a) eqn:Na.
  { destruct a; try discriminate. apply compare_cells_null_l. }
  destruct (is_null b) eqn:Nb.
  { destruct b; try discriminate. rewrite compare_cells_null_r in Hab; auto; lia. }
  destruct (is_null c) eqn:Nc.
  { destruct c; try discriminate. rewrite compare_cells_null_r in Hbc; auto; lia. }
  destruct Ma as [Ma|Ma]; [congruence|].
  destruct Mb as [Mb|Mb]; [congruence|].
  destruct Mc as [Mc|Mc]; [congruence|].
  unfold not_NaN in Ma, Mb, Mc.
  destruct m.
  - destruct (Number Number_str a) as [x|] eqn:Ex; [|discriminate].
    destruct (Number Number_str b) as [y|] eqn:Ey; [|discriminate].
    destruct (Number Number_str c) as [z|] eqn:Ez; [|discriminate].
    rewrite (compare_cells_num a b x y) in Hab by auto.
    rewrite (compare_cells_num b c y z) in Hbc by auto.
    rewrite (compare_cells_num a c x z) by auto. lia.
  - destruct (Number Number_str a) eqn:Ex; [discriminate|].
    destruct (Number Number_str b) eqn:Ey; [discriminate|].
    rewrite compare_cells_str in Hab, Hbc |- * by auto.
    eapply str_cmp_trans; eassumption.
Qed.
End Comparator.

Section RowOrder.
Context (Number_str : string -> option Z).

Lemma compare_rows_anti dir col a b :
  compare_rows Number_str col dir b a = (- compare_rows Number_str col dir a b)%Z.
Proof.
  unfold compare_rows. destruct dir.
  - apply compare_cells_anti.
  - rewrite !compare_cells_desc, compare_cells_anti. lia.
Qed.

Lemma compare_rows_trans dir col m a b c :
  mode_ok Number_str m (cell_at a col) -> mode_ok Number_str m (cell_at b col) ->
  mode_ok Number_str m (cell_at c col) ->
  (compare_rows Number_str col dir a b <= 0)%Z -> (compare_rows Number_str col dir b c <= 0)%Z ->
  (compare_rows Number_str col dir a c <= 0)%Z.
Proof.
  unfold compare_rows. intros Ma Mb Mc. destruct dir.
  - apply compare_cells_trans with (m := m) (b := cell_at b col); assumption.
  - rewrite !compare_cells_desc. intros Hab Hbc.
    assert (Hba : (compare_cells Number_str Asc (cell_at b col) (cell_at a col) <= 0)%Z)
      by (rewrite compare_cells_anti; lia).
    assert (Hcb : (compare_cells Number_str Asc (cell_at c col) (cell_at b col) <= 0)%Z)
      by (rewrite compare_cells_anti; lia).
    pose proof (compare_cells_trans Number_str m _ _ _ Mc Mb Ma Hcb Hba) as Hca.
    rewrite compare_cells_anti in Hca. lia.
Qed.

Lemma same_mode_Forall col rs :
  same_mode Number_str col rs = true ->
  exists m, Forall (fun r => mode_ok Number_str m (cell_at r col)) rs.
Proof.
  unfold same_mode. intros H. apply orb_true_iff in H as [H|H];
    [exists true|exists false]; apply Forall_forall; intros r Hr;
    rewrite forallb_forall in H; specialize (H r Hr);
    apply orb_true_iff in H as [H|H]; unfold mode_ok; auto.
  right. apply negb_true_iff in H. exact H.
Qed.

End RowOrder.

(* ================================================================== *)
(** * Chart aggregation facts *)

Section ChartFacts.
Context (Number_str : string -> option Z).

Lemma group_add_sum key num m :
  sumZ (map snd (group_add key num m)) = (sumZ (map snd m) + num)%Z.
Proof.
  induction m as [|[k s] m IH]; simpl; [lia|].
  destruct (String.eqb k key); simpl; [lia|]. rewrite IH. lia.
Qed.

(** [Number] reads a cell that does not parse as a number as NaN or [0]. *)
Lemma Number_not_parses c n :
  Number Number_str c = Some n -> parses_as_number Number_str c = false -> n = 0%Z.
Proof.
  destruct c as [|s|z]; simpl; intros H1 H2; try congruence.
  destruct (trim s); [congruence|]. rewrite H1 in H2. discriminate.
Qed.

Lemma parses_Number c :
  parses_as_number Number_str c = true -> exists n, Number Number_str c = Some n.
Proof.
  destruct c as [|s|z]; simpl; try discriminate; eauto.
  destruct (trim s); [discriminate|]. destruct (Number_str _); [eauto|discriminate].
Qed.

Lemma groupMap_fold_sum ci vi rs m :
  sumZ (map snd (fold_left (chart_step Number_str ci vi) rs m))
  = (sumZ (map snd m) + contributing_sum Number_str ci vi rs)%Z.
Proof.
  revert m; induction rs as [|r rs IH]; intros m; simpl.
  - unfold contributing_sum. simpl. lia.
  - rewrite IH. unfold contributing_sum, contributes. simpl.
    unfold chart_step.
    destruct (skip_category (cell_at r ci)) eqn:Hs; simpl; [reflexivity|].
    destruct (parses_as_number Number_str (cell_at r vi)) eqn:Hp; simpl.
    + destruct (parses_Number _ Hp) as [n Hn]. rewrite Hn.
      rewrite group_add_sum. unfold number_or_zero. rewrite Hn. lia.
    + destruct (Number Number_str (cell_at r vi)) as [n|] eqn:Hn; [|reflexivity].
      rewrite group_add_sum. rewrite (Number_not_parses _ _ Hn Hp). lia.
Qed.

Lemma sort_by_length {A} (cmp : A -> A -> Z) l : List.length (sort_by cmp l) = List.length l.
Proof. apply Permutation_length, sort_by_perm. Qed.

End ChartFacts.

(* ================================================================== *)
(** * Column classification facts *)

Section ClassifyFacts.
Context (Number_str : string -> option Z) (Date_valid : string -> bool).


Lemma set_add_In x u s : In s (set_add x u) <-> x = s \/ In s u.
Proof.
  unfold set_add. destruct (existsb (String.eqb x) u) eqn:E; simpl; [|tauto].
  apply existsb_exists in E as [y [Hy Hxy]]. apply String.eqb_eq in Hxy. subst y.
  split; [auto|]. intros [<-|H]; auto.
Qed.

Lemma set_add_NoDup x u : NoDup u -> NoDup (set_add x u).
Proof.
  intros Hu. unfold set_add. destruct (existsb (String.eqb x) u) eqn:E; [exact Hu|].
  constructor; [|exact Hu]. intros Hx.
  assert (existsb (String.eqb x) u = true) by
    (apply existsb_exists; exists x; split; [exact Hx|apply String.eqb_refl]).
  congruence.
Qed.

Lemma classify_fold l n d u :
  NoDup u ->
  let r := fold_left (classify_step Number_str Date_valid) l (n, d, u) in
  fst (fst r) = n + List.length (filter (numeric_value Number_str) l)
  /\ snd (fst r) = d + List.length (filter (date_value Date_valid) l)
  /\ NoDup (snd r)
  /\ (forall s, In s (snd r) <-> In s u \/ In s (map value_key l)).
Proof.
  revert n d u; induction l as [|v l IH]; intros n d u Hu; simpl.
  - split; [lia|]. split; [lia|]. split; [exact Hu|]. intros s. simpl. tauto.
  - destruct (IH (if not_NaN Number_str (CStr (trim (cell_toString v)))
                    && negb (String.eqb (trim (cell_toString v)) "") then S n else n)
                 (if Date_valid (trim (cell_toString v)) then S d else d)
                 (set_add (trim (cell_toString v)) u) (set_add_NoDup _ _ Hu))
      as (H1 & H2 & H3 & H4).
    assert (Hnv : numeric_value Number_str v
                  = not_NaN Number_str (CStr (trim (cell_toString v)))
                    && negb (String.eqb (trim (cell_toString v)) "")) by reflexivity.
    assert (Hdv : date_value Date_valid v = Date_valid (trim (cell_toString v))) by reflexivity.
    repeat split.
    + rewrite H1. cbn [filter]. rewrite Hnv. destruct (_ && _); simpl; lia.
    + rewrite H2. cbn [filter]. rewrite Hdv. destruct (Date_valid _); simpl; lia.
    + exact H3.
    + intros Hs. apply H4 in Hs. rewrite set_add_In in Hs. unfold value_key. simpl. tauto.
    + intros Hs. apply H4. rewrite set_add_In. unfold value_key in Hs. simpl in Hs. tauto.
Qed.

End ClassifyFacts.

(* ================================================================== *)
(** * State-machine facts *)

Section MachineFacts.
Context (Number_str : string -> option Z) (Date_valid : string -> bool).

Lemma pair_eqb_refl p : pair_eqb p p = true.
Proof. destruct p; unfold pair_eqb; simpl; rewrite !Nat.eqb_refl; reflexivity. Qed.

Lemma opt_pair_eqb_refl p : opt_pair_eqb p p = true.
Proof. destruct p; simpl; [apply pair_eqb_refl|reflexivity]. Qed.

Lemma commit_consistent st : consistent (commit Number_str Date_valid st).
Proof. split; reflexivity. Qed.

Lemma commit_id st : consistent st -> commit Number_str Date_valid st = st.
Proof.
  intros [H1 H2]. unfold commit. rewrite <- H1, <- H2, pair_eqb_refl, opt_pair_eqb_refl.
  destruct st; simpl in *. rewrite H1, H2. reflexivity.
Qed.

Lemma reachable_consistent st : reachable Number_str Date_valid st -> consistent st.
Proof.
  induction 1 as [|e st _ _]; [split; reflexivity|apply commit_consistent].
Qed.

Lemma with_view_consistent st v : consistent st -> consistent (with_view st v).
Proof. intros [H1 H2]; split; assumption. Qed.

Lemma setError_consistent st e : consistent st -> consistent (setError e st).
Proof. intros [H1 H2]; split; assumption. Qed.

Lemma sort_ok_toggleSort i v : sort_ok v -> sort_ok (toggleSort i v).
Proof.
  unfold sort_ok, toggleSort. intros H.
  destruct (sortColumnIndex v) as [c|] eqn:Ec.
  - destruct (c =? i); [|simpl; split; discriminate].
    destruct (sortDirection v) as [[|]|] eqn:Ed; simpl; rewrite ?Ec.
    + split; discriminate.
    + tauto.
    + exfalso. destruct H as [_ H]. specialize (H eq_refl). discriminate.
  - simpl. split; discriminate.
Qed.

Lemma sort_ok_handle e st : sort_ok (view st) -> sort_ok (view (handle e st)).
Proof.
  intros H. destruct e as [i|q|i|i| |t|i|i|f|r]; simpl; try exact H.
  - apply sort_ok_toggleSort, H.
  - unfold toggleColumn. destruct (columnVisibility (view st)); exact H.
  - destruct (activeSheet st); exact H.
  - unfold handleFileChange. destruct f as [nm|]; [|exact H].
    destruct (_ && _); exact H.
  - destruct r; exact H.
Qed.

Lemma sort_ok_commit st : sort_ok (view st) -> sort_ok (view (commit Number_str Date_valid st)).
Proof.
  intros H. unfold commit. simpl.
  assert (Hr : sort_ok (reset_effect st (view st))) by (unfold sort_ok; simpl; tauto).
  assert (Hc : forall v, sort_ok v -> sort_ok (chart_effect Number_str Date_valid st v)).
  { intros v Hv. unfold chart_effect. destruct (activeSheet st); [|exact Hv].
    destruct (columnTypes _ _ _); exact Hv. }
  destruct (pair_eqb _ _); destruct (opt_pair_eqb _ _); auto.
Qed.

Lemma reachable_sort_ok st : reachable Number_str Date_valid st -> sort_ok (view st).
Proof.
  induction 1 as [|e st _ IH].
  - unfold sort_ok; simpl; tauto.
  - apply sort_ok_commit, sort_ok_handle, IH.
Qed.

End MachineFacts.

(* ================================================================== *)
(** * Where the code and the specification's wording agree *)

Section Agreement.
Context (Number_str : string -> option Z).

Lemma parses_not_NaN c :
  blank_cell c = false -> parses_as_number Number_str c = not_NaN Number_str c.
Proof.
  unfold not_NaN. destruct c as [|s|z]; simpl; try discriminate; [|reflexivity].
  intros H. destruct (trim s); [discriminate|].
  destruct (Number_str _); reflexivity.
Qed.

Lemma chart_fold_agree ci vi rs m :
  Forall (fun r => blank_cell (cell_at r vi) = false) rs ->
  fold_left (chart_step Number_str ci vi) rs m = fold_left (chart_step_spec Number_str ci vi) rs m.
Proof.
  revert m; induction rs as [|r rs IH]; intros m Hb; [reflexivity|].
  inversion Hb as [|? ? Hr Hrs]; subst. simpl.
  replace (chart_step_spec Number_str ci vi m r) with (chart_step Number_str ci vi m r).
  - apply IH, Hrs.
  - unfold chart_step, chart_step_spec. rewrite (parses_not_NaN _ Hr). unfold not_NaN.
    destruct (skip_category _); [reflexivity|].
    destruct (Number Number_str (cell_at r vi)); reflexivity.
Qed.

Lemma compare_cells_agree dir a b :
  blank_string a = false -> blank_string b = false ->
  compare_cells Number_str dir a b = compare_cells_spec Number_str dir a b.
Proof.
  intros Ha Hb.
  destruct a as [|s|x]; destruct b as [|t|y]; try reflexivity;
  unfold compare_cells, compare_cells_spec;
  cbn -[Number parses_as_number toLowerCase cell_toString str_lt String.eqb];
  try (rewrite (parses_not_NaN (CStr s)) by exact Ha);
  try (rewrite (parses_not_NaN (CStr t)) by exact Hb);
  try (rewrite (parses_not_NaN (CNum x)) by reflexivity);
  try (rewrite (parses_not_NaN (CNum y)) by reflexivity);
  unfold not_NaN;
  repeat match goal with
  | |- context [ Number ?N ?c ] => let E := fresh in destruct (Number N c) eqn:E
  end; reflexivity.
Qed.

End Agreement.

Lemma array_map_from_length {A B} (f : A -> nat -> B) k a :
  List.length (array_map_from f k a) = List.length a.
Proof.
  revert k; induction a as [|[|x] a IH]; intros k; simpl; rewrite ?IH; reflexivity.
Qed.

Lemma parse_rows_length sheetData :
  Forall (fun r => List.length r = List.length (parse_headers sheetData)) (parse_rows sheetData).
Proof.
  unfold parse_rows. apply Forall_forall. intros r Hr.
  apply in_map_iff in Hr as [row [<- _]].
  unfold array_map. apply array_map_from_length.
Qed.

(* ================================================================== *)
(** * Helper facts: stable sort, chart entries, state machine *)

(** ** Insertion and the stable sort *)

Section InsertFacts.
Context {A : Type} (cmp : A -> A -> Z).
Local Open Scope list_scope.

Lemma insert_by_skip x pre l :
  Forall (fun y => (0 < cmp x y)%Z) pre ->
  insert_by cmp x (pre ++ l) = pre ++ insert_by cmp x l.
Proof.
  induction pre as [|y pre IH]; intros H; [reflexivity|].
  inversion H as [|? ? Hy Hpre]; subst. simpl.
  destruct (cmp x y <=? 0)%Z eqn:E; [apply Z.leb_le in E; lia|].
  rewrite IH by exact Hpre. reflexivity.
Qed.

Lemma insert_by_stop x l suf :
  (forall y suf', suf = y :: suf' -> (cmp x y <= 0)%Z) ->
  insert_by cmp x (l ++ suf) = insert_by cmp x l ++ suf.
Proof.
  intros Hs. induction l as [|y l IH]; simpl.
  - destruct suf as [|y suf']; [reflexivity|]. simpl.
    rewrite (proj2 (Z.leb_le _ _) (Hs y suf' eq_refl)). reflexivity.
  - destruct (cmp x y <=? 0)%Z; [reflexivity|]. rewrite IH. reflexivity.
Qed.

(** Insertion puts [x] between the elements it compares greater than and
    the first one it does not. *)
Lemma insert_by_split x l :
  exists a b, l = a ++ b /\ insert_by cmp x l = a ++ x :: b
    /\ Forall (fun y => (0 < cmp x y)%Z) a
    /\ (forall y b', b = y :: b' -> (cmp x y <= 0)%Z).
Proof.
  induction l as [|y l IH].
  - exists [], []. split; [reflexivity|]. split; [reflexivity|].
    split; [constructor|]. intros; discriminate.
  - simpl. destruct (cmp x y <=? 0)%Z eqn:E.
    + exists [], (y :: l). split; [reflexivity|]. split; [reflexivity|].
      split; [constructor|]. intros y' b' H. injection H as -> ->. apply Z.leb_le, E.
    + destruct IH as (a & b & -> & Hi & Ha & Hb). exists (y :: a), b.
      rewrite Hi. split; [reflexivity|]. split; [reflexivity|].
      split; [|exact Hb]. constructor; [apply Z.leb_gt in E; lia|exact Ha].
Qed.

Lemma before_app_cons (x y z : A) a b : before x y (a ++ b) -> before x y (a ++ z :: b).
Proof.
  intros (i & j & Hij & Hi & Hj).
  set (sh := fun k => if k <? List.length a then k else S k).
  assert (Hsh : forall k, nth_error (a ++ z :: b) (sh k) = nth_error (a ++ b) k).
  { intros k. unfold sh. destruct (k <? List.length a) eqn:E.
    - apply Nat.ltb_lt in E. rewrite !nth_error_app1 by lia. reflexivity.
    - apply Nat.ltb_ge in E. rewrite !nth_error_app2 by lia.
      replace (S k - List.length a) with (S (k - List.length a)) by lia. reflexivity. }
  exists (sh i), (sh j). rewrite !Hsh. split; [|auto].
  unfold sh. destruct (i <? _) eqn:E1, (j <? _) eqn:E2;
    rewrite ?Nat.ltb_lt, ?Nat.ltb_ge in *; lia.
Qed.

Lemma before_insert_by x y z l : before x y l -> before x y (insert_by cmp z l).
Proof.
  destruct (insert_by_split z l) as (a & b & -> & -> & _). apply before_app_cons.
Qed.

(** Stability: an element that precedes [y] in the input and does not
    compare greater than it precedes it in the output. *)
Lemma sort_by_stable l1 x l2 y :
  In y l2 -> (cmp x y <= 0)%Z -> before x y (sort_by cmp (l1 ++ x :: l2)).
Proof.
  intros Hy Hxy. unfold sort_by. rewrite fold_right_app.
  induction l1 as [|z l1 IH]; simpl.
  - destruct (insert_by_split x (fold_right (insert_by cmp) [] l2)) as (a & b & Hl & Hi & Ha & _).
    rewrite Hi.
    assert (Hy' : In y (a ++ b)).
    { rewrite <- Hl. change (In y (sort_by cmp l2)).
      apply (Permutation_in _ (Permutation_sym (sort_by_perm cmp l2))), Hy. }
    apply in_app_or in Hy' as [Hya|Hyb].
    + rewrite Forall_forall in Ha. specialize (Ha y Hya). lia.
    + apply In_nth_error in Hyb as [j Hj].
      exists (List.length a), (S (List.length a + j)). split; [lia|]. split.
      * rewrite nth_error_app2 by lia. rewrite Nat.sub_diag. reflexivity.
      * rewrite nth_error_app2 by lia.
        replace (S (List.length a + j) - List.length a) with (S j) by lia. exact Hj.
  - apply before_insert_by. exact IH.
Qed.

Lemma StronglySorted_weaken (R R' : A -> A -> Prop) (Q : A -> Prop) l :
  StronglySorted R l -> Forall Q l -> (forall a b, Q a -> Q b -> R a b -> R' a b) ->
  StronglySorted R' l.
Proof.
  intros S F H. induction S as [|a l S IH Fa]; [constructor|].
  inversion F as [|? ? Qa Ql]; subst. constructor; [apply IH, Ql|].
  rewrite Forall_forall in Fa, Ql |- *. intros b Hb. apply H; auto.
Qed.

Lemma StronglySorted_app_inv (R : A -> A -> Prop) l1 l2 :
  StronglySorted R (l1 ++ l2) ->
  StronglySorted R l1 /\ (forall a b, In a l1 -> In b l2 -> R a b).
Proof.
  induction l1 as [|x l1 IH]; intros S; simpl in *.
  - split; [constructor|]. intros a b [].
  - inversion S as [|? ? S' F]; subst. destruct (IH S') as [S1 H1].
    rewrite Forall_forall in F. split.
    + constructor; [exact S1|]. apply Forall_forall. intros b Hb. apply F, in_or_app. auto.
    + intros a b [<-|Ha] Hb; [apply F, in_or_app; auto|auto].
Qed.

End InsertFacts.

(** ** Table rows *)

Section SortPlacement.
Context (Number_str : string -> option Z).
Local Open Scope list_scope.

Lemma sort_rows_cons col dir x rs :
  sort_rows Number_str col dir (x :: rs)
  = insert_by (compare_rows Number_str col dir) x (sort_rows Number_str col dir rs).
Proof. reflexivity. Qed.

Lemma sort_rows_asc_shape col rs :
  exists rest, sort_rows Number_str col Asc rs
               = filter (fun r => is_null (cell_at r col)) rs ++ rest
    /\ Forall (fun r => is_null (cell_at r col) = false) rest.
Proof.
  induction rs as [|x rs IH]; [exists []; split; [reflexivity|constructor]|].
  destruct IH as (rest & Hs & Hr). rewrite sort_rows_cons, Hs. simpl.
  destruct (is_null (cell_at x col)) eqn:Ex.
  - exists rest. split; [|exact Hr].
    change (x :: ?l) with ([x] ++ l).
    rewrite <- (app_nil_l (filter _ rs ++ rest)) at 1.
    rewrite insert_by_stop; [reflexivity|].
    intros y suf' Hsuf. unfold compare_rows.
    destruct (cell_at x col); try discriminate. apply compare_cells_null_l.
  - exists (insert_by (compare_rows Number_str col Asc) x rest).
    split.
    + apply insert_by_skip. apply Forall_forall. intros y Hy.
      apply filter_In in Hy as [_ Hy]. unfold compare_rows.
      destruct (cell_at y col); try discriminate.
      rewrite compare_cells_null_r by exact Ex. lia.
    + apply (Permutation_Forall (Permutation_sym (insert_by_perm _ x rest))).
      constructor; assumption.
Qed.

Lemma sort_rows_desc_shape col rs :
  exists rest, sort_rows Number_str col Desc rs
               = rest ++ filter (fun r => is_null (cell_at r col)) rs
    /\ Forall (fun r => is_null (cell_at r col) = false) rest.
Proof.
  induction rs as [|x rs IH]; [exists []; split; [reflexivity|constructor]|].
  destruct IH as (rest & Hs & Hr). rewrite sort_rows_cons, Hs. simpl.
  destruct (is_null (cell_at x col)) eqn:Ex.
  - exists rest. split; [|exact Hr].
    rewrite insert_by_skip.
    + destruct (filter _ rs) as [|y l] eqn:Ef; [reflexivity|]. simpl.
      assert (Hy : is_null (cell_at y col) = true).
      { assert (In y (filter (fun r => is_null (cell_at r col)) rs)) by (rewrite Ef; left; reflexivity).
        apply filter_In in H as [_ H]. exact H. }
      unfold compare_rows. destruct (cell_at x col), (cell_at y col); try discriminate.
      reflexivity.
    + apply Forall_forall. intros y Hy. rewrite Forall_forall in Hr. specialize (Hr y Hy).
      unfold compare_rows. rewrite compare_cells_desc.
      destruct (cell_at x col), (cell_at y col); try discriminate; simpl; lia.
  - exists (insert_by (compare_rows Number_str col Desc) x rest).
    split.
    + apply insert_by_stop. intros y suf' Hsuf.
      assert (Hy : is_null (cell_at y col) = true).
      { assert (In y (filter (fun r => is_null (cell_at r col)) rs)) by (rewrite Hsuf; left; reflexivity).
        apply filter_In in H as [_ H]. exact H. }
      unfold compare_rows. rewrite compare_cells_desc.
      destruct (cell_at y col); try discriminate.
      rewrite compare_cells_null_r by exact Ex. lia.
    + apply (Permutation_Forall (Permutation_sym (insert_by_perm _ x rest))).
      constructor; assumption.
Qed.

End SortPlacement.

(** ** Chart entries *)

Lemma digits_aux_nonempty f n acc : acc <> "" -> digits_aux f n acc <> "".
Proof.
  revert n acc; induction f as [|f IH]; intros n acc H; simpl; [exact H|].
  destruct (n <? 10); [discriminate|]. apply IH. discriminate.
Qed.

Lemma Z_to_string_nonempty z : Z_to_string z <> "".
Proof.
  destruct z as [|p|p]; simpl; try discriminate.
  unfold nat_to_string. cbn [digits_aux].
  destruct (Pos.to_nat p <? 10); [discriminate|]. apply digits_aux_nonempty. discriminate.
Qed.

Section ChartEntries.
Context (Number_str : string -> option Z).
Local Open Scope list_scope.

Lemma map_get_group_add key k n m :
  map_get key (group_add k n m)
  = if String.eqb k key
    then Some ((match map_get key m with Some s => s | None => 0 end) + n)%Z
    else map_get key m.
Proof.
  induction m as [|[k0 s] m IH]; cbn [group_add map_get].
  - destruct (String.eqb k key); reflexivity.
  - destruct (String.eqb_spec k0 k) as [->|Hk]; cbn [map_get].
    + destruct (String.eqb k key); reflexivity.
    + destruct (String.eqb_spec k0 key) as [->|Hk2]; [|exact IH].
      destruct (String.eqb_spec k key) as [->|]; [congruence|reflexivity].
Qed.

Lemma existsb_false_filter {A} (f : A -> bool) l : existsb f l = false -> filter f l = [].
Proof.
  induction l as [|a l IH]; simpl; [reflexivity|].
  intros H. apply orb_false_iff in H as [H1 H2]. rewrite H1. apply IH, H2.
Qed.

(** What [groupMap.get(key)] holds after the loop over [rs]. *)
Lemma map_get_fold ci vi key rs m :
  map_get key (fold_left (chart_step Number_str ci vi) rs m)
  = if existsb (counted_for Number_str ci vi key) rs
    then Some ((match map_get key m with Some s => s | None => 0 end)
               + sumZ (map (fun r => number_or_zero Number_str (cell_at r vi))
                           (filter (counted_for Number_str ci vi key) rs)))%Z
    else map_get key m.
Proof.
  revert m; induction rs as [|r rs IH]; intros m; [reflexivity|].
  cbn [fold_left existsb filter]. rewrite IH.
  destruct (counted_for Number_str ci vi key r) eqn:Ec.
  - unfold counted_for in Ec.
    apply andb_true_iff in Ec as [Ec Hn]. apply andb_true_iff in Ec as [Hs Hk].
    apply negb_true_iff in Hs. apply String.eqb_eq in Hk.
    unfold not_NaN in Hn. destruct (Number Number_str (cell_at r vi)) as [n|] eqn:En; [|discriminate].
    assert (Hstep : chart_step Number_str ci vi m r = group_add key n m).
    { unfold chart_step. rewrite Hs, En, Hk. reflexivity. }
    assert (Hnz : number_or_zero Number_str (cell_at r vi) = n)
      by (unfold number_or_zero; rewrite En; reflexivity).
    rewrite Hstep, map_get_group_add, String.eqb_refl. simpl orb. cbn [map].
    change (sumZ (?a :: ?l)) with (a + sumZ l)%Z. rewrite Hnz.
    destruct (existsb _ rs) eqn:Ee.
    + f_equal. lia.
    + rewrite (existsb_false_filter _ _ Ee). simpl. f_equal. lia.
  - assert (Hstep : map_get key (chart_step Number_str ci vi m r) = map_get key m).
    { unfold chart_step. destruct (skip_category (cell_at r ci)) eqn:Hs; [reflexivity|].
      destruct (Number Number_str (cell_at r vi)) as [n|] eqn:En; [|reflexivity].
      rewrite map_get_group_add.
      destruct (String.eqb (cell_toString (cell_at r ci)) key) eqn:Hk; [|reflexivity].
      unfold counted_for, not_NaN in Ec. rewrite Hs, Hk, En in Ec. discriminate. }
    rewrite Hstep. simpl orb. reflexivity.
Qed.

Lemma group_add_keys key n m k :
  In k (map fst (group_add key n m)) <-> k = key \/ In k (map fst m).
Proof.
  induction m as [|[k0 s] m IH]; simpl; [intuition congruence|].
  destruct (String.eqb_spec k0 key) as [->|Hk]; simpl; [intuition congruence|].
  rewrite IH. intuition congruence.
Qed.

Lemma group_add_NoDup key n m : NoDup (map fst m) -> NoDup (map fst (group_add key n m)).
Proof.
  induction m as [|[k0 s] m IH]; simpl; intros H; [repeat constructor; intros []|].
  inversion H as [|? ? Hk0 Hm]; subst.
  destruct (String.eqb_spec k0 key) as [->|Hk]; simpl; [exact H|].
  constructor; [|apply IH, Hm]. rewrite group_add_keys. intros [E|E]; [congruence|tauto].
Qed.

Lemma groupMap_NoDup ci vi rs m :
  NoDup (map fst m) -> NoDup (map fst (fold_left (chart_step Number_str ci vi) rs m)).
Proof.
  revert m; induction rs as [|r rs IH]; intros m H; simpl; [exact H|].
  apply IH. unfold chart_step.
  destruct (skip_category _); [exact H|].
  destruct (Number _ _); [apply group_add_NoDup, H|exact H].
Qed.

Lemma map_get_In key v m : NoDup (map fst m) -> In (key, v) m -> map_get key m = Some v.
Proof.
  induction m as [|[k s] m IH]; simpl; [intros _ []|].
  intros H [E|E]; inversion H as [|? ? Hk Hm]; subst.
  - injection E as -> ->. rewrite String.eqb_refl. reflexivity.
  - destruct (String.eqb_spec k key) as [->|]; [|apply IH; assumption].
    exfalso. apply Hk. apply (in_map fst _ _ E).
Qed.

Lemma map_get_some key v m : map_get key m = Some v -> In (key, v) m.
Proof.
  induction m as [|[k s] m IH]; simpl; [discriminate|].
  destruct (String.eqb_spec k key) as [->|]; [intros H; injection H as ->; auto|auto].
Qed.

Lemma counted_for_key ci vi key r : counted_for Number_str ci vi key r = true -> key <> "".
Proof.
  unfold counted_for. intros H.
  apply andb_true_iff in H as [H _]. apply andb_true_iff in H as [Hs Hk].
  apply String.eqb_eq in Hk. subst key.
  destruct (cell_at r ci) as [|s|z]; simpl in *; try discriminate.
  - destruct s; [discriminate|]. discriminate.
  - apply Z_to_string_nonempty.
Qed.

Lemma NoDup_firstn_list {A} n (l : list A) : NoDup l -> NoDup (firstn n l).
Proof.
  intros H. rewrite <- (firstn_skipn n l) in H. apply NoDup_app_remove_r in H. exact H.
Qed.

End ChartEntries.

(** ** Default axes, commits and events *)

Lemma ColumnType_eqb_eq a b : ColumnType_eqb a b = true <-> a = b.
Proof. destruct a, b; simpl; split; congruence. Qed.

Lemma findIndex_Some ty l i :
  findIndex ty l = Some i ->
  nth_error l i = Some ty /\ (forall j, j < i -> nth_error l j <> Some ty).
Proof.
  revert i; induction l as [|t l IH]; intros i; simpl; [discriminate|].
  destruct (ColumnType_eqb t ty) eqn:E.
  - intros H. injection H as <-. apply ColumnType_eqb_eq in E. subst.
    split; [reflexivity|]. intros j Hj. lia.
  - destruct (findIndex ty l) as [k|]; simpl; [|discriminate].
    intros H. injection H as <-. destruct (IH k eq_refl) as [H1 H2].
    split; [exact H1|]. intros [|j] Hj; simpl.
    + intros H. injection H as ->. rewrite (proj2 (ColumnType_eqb_eq ty ty) eq_refl) in E.
      discriminate.
    + apply H2. lia.
Qed.

Lemma findIndex_None ty l : findIndex ty l = None <-> ~ In ty l.
Proof.
  induction l as [|t l IH]; simpl; [tauto|].
  destruct (ColumnType_eqb t ty) eqn:E.
  - apply ColumnType_eqb_eq in E. split; [discriminate|tauto].
  - assert (Ht : t <> ty).
    { intros ->. rewrite (proj2 (ColumnType_eqb_eq ty ty) eq_refl) in E. discriminate. }
    destruct (findIndex ty l) as [n|] eqn:F; simpl.
    + split; [discriminate|]. intros Hn. exfalso. apply Hn. right.
      destruct (findIndex_Some ty l n F) as [H _]. exact (nth_error_In _ _ H).
    + split; [|reflexivity]. intros _ [H|H]; [contradiction|]. exact (proj1 IH eq_refl H).
Qed.

Lemma pair_eqb_eq a b : pair_eqb a b = true -> a = b.
Proof.
  destruct a as [a1 a2], b as [b1 b2]. unfold pair_eqb. simpl.
  rewrite andb_true_iff, !Nat.eqb_eq. intros [-> ->]. reflexivity.
Qed.

Lemma nth_repeat_true n k : k < n -> nth k (repeat true n) false = true.
Proof.
  revert k; induction n as [|n IH]; intros [|k] H; simpl; try lia; try reflexivity.
  apply IH. lia.
Qed.





Section TableFacts.
Local Open Scope list_scope.

Lemma combine_filter_visible {A B} cv k (l1 : list A) (l2 : list B) :
  List.length l1 = List.length l2 ->
  combine (filter_visible cv k l1) (filter_visible cv k l2) = filter_visible cv k (combine l1 l2).
Proof.
  revert k l2; induction l1 as [|a l1 IH]; intros k [|b l2] H; simpl in *;
    try discriminate; try reflexivity.
  destruct (nth k cv false); simpl; rewrite IH by lia; reflexivity.
Qed.

Lemma filter_visible_length {A B} cv k (l1 : list A) (l2 : list B) :
  List.length l1 = List.length l2 ->
  List.length (filter_visible cv k l1) = List.length (filter_visible cv k l2).
Proof.
  revert k l2; induction l1 as [|a l1 IH]; intros k [|b l2] H; simpl in *;
    try discriminate; try reflexivity.
  destruct (nth k cv false); simpl; rewrite (IH (S k) l2) by lia; reflexivity.
Qed.

Lemma filter_visible_all {A} n k (l : list A) :
  k + List.length l <= n -> filter_visible (repeat true n) k l = l.
Proof.
  revert k; induction l as [|a l IH]; intros k H; simpl in *; [reflexivity|].
  rewrite nth_repeat_true by lia. rewrite IH by lia. reflexivity.
Qed.


End TableFacts.

Section MachineMore.
Context (Number_str : string -> option Z) (Date_valid : string -> bool).

Lemma chart_effect_view st v :
  chart_effect Number_str Date_valid st v
  = match columnTypes Number_str Date_valid (activeSheet st) with
    | [] => v
    | cts => setChartAxes (findIndex Categorical cts) (findIndex Numeric cts) v
    end.
Proof. unfold chart_effect. destruct (activeSheet st); reflexivity. Qed.

Lemma columnTypes_length sh :
  List.length (columnTypes Number_str Date_valid (Some sh)) = List.length (headers sh).
Proof. simpl. rewrite length_map, length_seq. reflexivity. Qed.

Lemma chart_effect_axes st v :
  chartCategoryIndex v = None -> chartValueIndex v = None ->
  chartCategoryIndex (chart_effect Number_str Date_valid st v)
    = findIndex Categorical (columnTypes Number_str Date_valid (activeSheet st))
  /\ chartValueIndex (chart_effect Number_str Date_valid st v)
    = findIndex Numeric (columnTypes Number_str Date_valid (activeSheet st)).
Proof.
  intros H1 H2. rewrite chart_effect_view.
  destruct (columnTypes _ _ _); simpl; auto.
Qed.

Lemma chart_effect_fields st v :
  searchQuery (chart_effect Number_str Date_valid st v) = searchQuery v
  /\ sortColumnIndex (chart_effect Number_str Date_valid st v) = sortColumnIndex v
  /\ sortDirection (chart_effect Number_str Date_valid st v) = sortDirection v
  /\ columnVisibility (chart_effect Number_str Date_valid st v) = columnVisibility v
  /\ activeTab (chart_effect Number_str Date_valid st v) = activeTab v.
Proof.
  rewrite chart_effect_view. destruct (columnTypes _ _ _); repeat split.
Qed.

Lemma commit_view st :
  view (commit Number_str Date_valid st)
  = if opt_pair_eqb (deps_chart st) (activeSheet_id st)
    then (if pair_eqb (deps_reset st) (activeSheetIndex st, List.length (sheets st))
          then view st else reset_effect st (view st))
    else chart_effect Number_str Date_valid st
           (if pair_eqb (deps_reset st) (activeSheetIndex st, List.length (sheets st))
            then view st else reset_effect st (view st)).
Proof. reflexivity. Qed.

Lemma chart_skip_or_run st (b : bool) v :
  activeSheet st = None \/ b = false ->
  (if b then v else chart_effect Number_str Date_valid st v) = chart_effect Number_str Date_valid st v.
Proof.
  intros [H | ->]; [|reflexivity]. destruct b; [|reflexivity].
  unfold chart_effect. rewrite H. reflexivity.
Qed.

Lemma commit_fileName_error st :
  fileName (commit Number_str Date_valid st) = fileName st
  /\ error (commit Number_str Date_valid st) = error st.
Proof. split; reflexivity. Qed.

End MachineMore.

Section ChartOutput.
Context (Number_str : string -> option Z).
Local Open Scope list_scope.

(** [chartData] is the first 25 entries of the groups sorted by value,
    descending. *)
Lemma chartData_split sh ci vi :
  let entries := map (fun '(k, v) => mkDatum k v) (groupMap Number_str ci vi (rows sh)) in
  let sorted := sort_by (fun a b => (value b - value a)%Z) entries in
  chartData Number_str (Some sh) (Some ci) (Some vi) = firstn 25 sorted
  /\ Permutation sorted entries
  /\ StronglySorted (fun a b => (value b <= value a)%Z) sorted.
Proof.
  intros entries sorted.
  split; [reflexivity|]. split; [apply sort_by_perm|].
  assert (HS : StronglySorted (cmp_le (fun a b => (value b - value a)%Z)) sorted).
  { apply (sort_by_sorted _ (fun _ => True)).
    - intros a b. lia.
    - intros a b c _ _ _ H1 H2. unfold cmp_le in *. lia.
    - apply Forall_forall. auto. }
  apply (StronglySorted_weaken _ _ (fun _ => True) _ HS).
  - apply Forall_forall. auto.
  - intros a b _ _ H. unfold cmp_le in H. lia.
Qed.

Lemma In_firstn_list {A} n (l : list A) x : In x (firstn n l) -> In x l.
Proof.
  intros H. rewrite <- (firstn_skipn n l). apply in_or_app. left. exact H.
Qed.

Lemma chartData_In_groupMap sh ci vi d :
  In d (chartData Number_str (Some sh) (Some ci) (Some vi)) ->
  In (category d, value d) (groupMap Number_str ci vi (rows sh)).
Proof.
  destruct (chartData_split sh ci vi) as (Hout & HP & _).
  rewrite Hout. intros Hd. apply In_firstn_list, (Permutation_in _ HP) in Hd.
  apply in_map_iff in Hd as [[k v] [<- Hkv]]. exact Hkv.
Qed.

Lemma groupMap_In_sorted sh ci vi k v :
  In (k, v) (groupMap Number_str ci vi (rows sh)) ->
  In (mkDatum k v)
    (sort_by (fun a b => (value b - value a)%Z)
       (map (fun '(k, v) => mkDatum k v) (groupMap Number_str ci vi (rows sh)))).
Proof.
  intros H. apply (Permutation_in _ (Permutation_sym (sort_by_perm _ _))).
  apply in_map_iff. exists (k, v). split; [reflexivity|exact H].
Qed.

End ChartOutput.
(* ================================================================== *)
(** * Claims *)

(** C5 (amended).  When every present cell of the sort column is read as a
    number by [Number], or none is, sorting twice with the same column and
    direction gives the order of sorting once; and for every pair of rows
    whose cells compare strictly (not equal), the descending sort puts them
    in the opposite relative order to the ascending sort; a row that comes
    before another row in the input and compares equal to it stays before
    it in both the ascending and the descending sort (the sort is stable). *)
Theorem sort_rows_same_mode (Number_str : string -> option Z) (col : nat)
    (dir : SortDirection) (rs : list Row)
    (Hmode : same_mode Number_str col rs = true) :
  sort_rows Number_str col dir (sort_rows Number_str col dir rs) = sort_rows Number_str col dir rs
  /\ (forall x y, In x rs -> In y rs -> (compare_rows Number_str col Asc x y < 0)%Z ->
        before x y (sort_rows Number_str col Asc rs) /\ ~ before y x (sort_rows Number_str col Asc rs)
        /\ before y x (sort_rows Number_str col Desc rs) /\ ~ before x y (sort_rows Number_str col Desc rs))
  /\ (forall l1 l2 x y, rs = (l1 ++ x :: l2)%list -> In y l2 ->
        compare_rows Number_str col Asc x y = 0%Z ->
        before x y (sort_rows Number_str col Asc rs) /\ before x y (sort_rows Number_str col Desc rs)).
Proof.
  destruct (same_mode_Forall Number_str col rs Hmode) as [m Hm].
  set (P := fun r : Row => mode_ok Number_str m (cell_at r col)).
  assert (Hanti : forall d a b, compare_rows Number_str col d b a = (- compare_rows Number_str col d a b)%Z)
    by (intros; apply compare_rows_anti).
  assert (Htrans : forall d a b c, P a -> P b -> P c ->
            (compare_rows Number_str col d a b <= 0)%Z -> (compare_rows Number_str col d b c <= 0)%Z ->
            (compare_rows Number_str col d a c <= 0)%Z)
    by (intros d a b c; apply compare_rows_trans).
  split; [|split].
  - unfold sort_rows. exact (sort_by_idem _ P (Hanti dir) (Htrans dir) rs Hm).
  - intros x y Hx Hy Hlt. unfold sort_rows.
    destruct (sort_by_order (compare_rows Number_str col Asc) P (Hanti Asc) (Htrans Asc) rs x y Hm Hx Hy Hlt)
      as [H1 H2].
    assert (Hlt' : (compare_rows Number_str col Desc y x < 0)%Z).
    { unfold compare_rows in *. rewrite compare_cells_desc, compare_cells_anti. lia. }
    destruct (sort_by_order (compare_rows Number_str col Desc) P (Hanti Desc) (Htrans Desc) rs y x Hm Hy Hx Hlt')
      as [H3 H4].
    auto.
  - intros l1 l2 x y -> Hy Heq. unfold sort_rows.
    assert (Hd : compare_rows Number_str col Desc x y = 0%Z).
    { unfold compare_rows in *. rewrite compare_cells_desc, Heq. reflexivity. }
    split; apply sort_by_stable; [exact Hy|lia|exact Hy|lia].
Qed.

Lemma sort_rows_same_mode_witness :
  same_mode int_Number_str 0 [[CNull; CNum 1]; [CStr "b"; CNum 2]; [CStr "a"; CNum 3]] = true
  /\ sort_rows int_Number_str 0 Asc
       (sort_rows int_Number_str 0 Asc [[CNull; CNum 1]; [CStr "b"; CNum 2]; [CStr "a"; CNum 3]])
     = sort_rows int_Number_str 0 Asc [[CNull; CNum 1]; [CStr "b"; CNum 2]; [CStr "a"; CNum 3]].
Proof.
  split; [reflexivity|].
  apply (sort_rows_same_mode int_Number_str 0 Asc _). reflexivity.
Defined.

(** C5 counterexample: two rows whose sort cells are both numbers (same
    mode) and equal keep their input order in both directions, so toggling
    the direction does not reverse them. *)
Lemma sort_toggle_ties_counterexample :
  not_NaN int_Number_str (CNum 5) = true
  /\ sort_rows int_Number_str 0 Asc [[CNum 5; CStr "x"]; [CNum 5; CStr "y"]]
     = [[CNum 5; CStr "x"]; [CNum 5; CStr "y"]]
  /\ sort_rows int_Number_str 0 Desc [[CNum 5; CStr "x"]; [CNum 5; CStr "y"]]
     = [[CNum 5; CStr "x"]; [CNum 5; CStr "y"]].
Proof. repeat split; reflexivity. Qed.

(** C4 (amended).  Searching with the empty string, or with any query made
    only of white space, returns all rows unchanged and in order; filtering
    twice with the same query gives the rows of filtering once; for a query
    with a non-white-space character a row is kept, in order, exactly when
    some cell's string form (absent cells read as [""]) contains the query
    case-insensitively; searching ["east"] keeps the two ["East"] rows. *)
Theorem search_rows_spec (q : string) (rs : list Row) :
  search_rows "" rs = rs
  /\ search_rows q (search_rows q rs) = search_rows q rs
  /\ (trim q = "" -> search_rows q rs = rs)
  /\ (trim q <> "" ->
        search_rows q rs
        = filter (fun r => existsb (fun c => includes (toLowerCase (cell_toString c))
                                                       (toLowerCase q)) r) rs)
  /\ (forall r, row_matches (toLowerCase q) r = true <->
        exists c, In c r /\ includes (toLowerCase (cell_toString c)) (toLowerCase q) = true)
  /\ search_rows "east" [[CStr "East"; CNum 10]; [CStr "West"; CNum 5]; [CStr "East"; CNum 3]]
     = [[CStr "East"; CNum 10]; [CStr "East"; CNum 3]].
Proof.
  unfold search_rows.
  repeat split.
  - destruct (trim q); [reflexivity|]. apply filter_idem.
  - intros H. rewrite H. reflexivity.
  - intros H. destruct (trim q); [congruence|reflexivity].
  - intros H. apply existsb_exists in H. exact H.
  - intros H. apply existsb_exists. exact H.
Qed.

(** C4 counterexample: the query [" "] (white space only) does not filter,
    so the row [["East"]] is kept although none of its cells contains
    [" "]. *)
Lemma search_blank_query_counterexample :
  search_rows " " [[CStr "East"]] = [[CStr "East"]]
  /\ row_matches (toLowerCase " ") [CStr "East"] = false.
Proof. split; reflexivity. Qed.

(** C6 (amended).  For every sheet and every category and value column,
    the per-category sums of the grouping add up to the sum of the
    numeric value cells over the rows whose category cell is present and
    non-empty and whose value cell parses as a number (numbers read
    exactly).  No contributing row is dropped or counted twice: the
    categories are distinct, and each category's sum is taken over exactly
    the rows that carry it.  The output is cut to the top 25 categories:
    it has [min 25 n] entries for [n] categories, each a category with its
    sum, and a category left out has a sum no larger than any shown; so
    the output's [value] fields add up to the total whenever there are at
    most 25 categories. *)
Theorem chartData_sum (Number_str : string -> option Z) (sh : ParsedSheet) (ci vi : nat) :
  let gm := groupMap Number_str ci vi (rows sh) in
  let out := chartData Number_str (Some sh) (Some ci) (Some vi) in
  sumZ (map snd gm) = contributing_sum Number_str ci vi (rows sh)
  /\ NoDup (map fst gm)
  /\ (forall k v, In (k, v) gm ->
        v = sumZ (map (fun r => number_or_zero Number_str (cell_at r vi))
                      (filter (counted_for Number_str ci vi k) (rows sh))))
  /\ (List.length gm <= 25 -> sumZ (map value out) = contributing_sum Number_str ci vi (rows sh))
  /\ List.length out = Nat.min 25 (List.length gm)
  /\ (forall d, In d out -> In (category d, value d) gm)
  /\ (forall k v, In (k, v) gm -> ~ In (mkDatum k v) out ->
        forall d, In d out -> (v <= value d)%Z).
Proof.
  intros gm out.
  destruct (chartData_split Number_str sh ci vi) as (Hout & HP & HS).
  fold gm in Hout, HP, HS. fold out in Hout.
  set (entries := map (fun '(k, v) => mkDatum k v) gm) in *.
  set (sorted := sort_by (fun a b => (value b - value a)%Z) entries) in *.
  assert (Htot : sumZ (map snd gm) = contributing_sum Number_str ci vi (rows sh)).
  { unfold gm, groupMap. rewrite groupMap_fold_sum. reflexivity. }
  assert (Hnd : NoDup (map fst gm)) by (apply groupMap_NoDup; constructor).
  assert (Hlen : List.length sorted = List.length gm).
  { unfold sorted. rewrite sort_by_length. unfold entries. apply length_map. }
  split; [exact Htot|]. split; [exact Hnd|]. split.
  { intros k v Hkv. pose proof (map_get_In _ _ _ Hnd Hkv) as Hg.
    unfold gm, groupMap in Hg. rewrite map_get_fold in Hg. cbn [map_get] in Hg.
    destruct (existsb _ (rows sh)); [|discriminate].
    injection Hg as Hg. lia. }
  split.
  { intros Hcap. rewrite Hout, firstn_all2 by lia.
    rewrite (sumZ_perm _ (map value entries)) by (apply Permutation_map, HP).
    assert (Hvals : map value entries = map snd gm).
    { unfold entries. rewrite map_map. apply map_ext. intros [k v]. reflexivity. }
    rewrite Hvals. exact Htot. }
  rewrite <- (firstn_skipn 25 sorted) in HS.
  destruct (StronglySorted_app_inv _ _ _ HS) as [_ Hcross].
  split; [|split].
  - rewrite Hout, length_firstn, Hlen. reflexivity.
  - intros d Hd. exact (chartData_In_groupMap Number_str sh ci vi d Hd).
  - intros k v Hkv Hnot d Hd.
    pose proof (groupMap_In_sorted Number_str sh ci vi k v Hkv) as Hm. fold gm entries sorted in Hm.
    rewrite <- (firstn_skipn 25 sorted) in Hm.
    apply in_app_or in Hm as [Hm|Hm]; [rewrite Hout in Hnot; contradiction|].
    rewrite Hout in Hd. exact (Hcross d _ Hd Hm).
Qed.

(** C6 counterexample: 26 categories ["A"] .. ["Z"] with value 1 each; the
    rows contribute 26 but the output, cut to the top 25, sums to 25. *)
Lemma chartData_sum_counterexample :
  sumZ (map value (chartData int_Number_str
     (Some (mkSheet "Sheet1" ["Letter"; "Count"]
        (map (fun k => [CStr (String (ascii_of_nat (65 + k)) EmptyString); CNum 1]) (seq 0 26))))
     (Some 0) (Some 1))) = 25%Z
  /\ contributing_sum int_Number_str 0 1
       (map (fun k => [CStr (String (ascii_of_nat (65 + k)) EmptyString); CNum 1]) (seq 0 26))
     = 26%Z.
Proof. split; vm_compute; reflexivity. Qed.

(** C2 (amended).  For every column, the classifier computes numericRatio
    and dateRatio over the column's values that are neither absent nor the
    empty string, and returns the first match: date if dateRatio > 0.6,
    else numeric if numericRatio > 0.6, else categorical if the number of
    distinct trimmed string forms of those values is at most
    min(20, total), else unknown.  A column with no such value (all cells
    absent or [""]) is unknown. *)
Theorem columnType_classifies (Number_str : string -> option Z) (Date_valid : string -> bool)
    (rs : list Row) (colIdx : nat) :
  columnType Number_str Date_valid rs colIdx
  = columnType_amended Number_str Date_valid (map (fun row => cell_at row colIdx) rs)
  /\ (forallb (fun v => negb (kept_value v)) (map (fun row => cell_at row colIdx) rs) = true ->
      columnType Number_str Date_valid rs colIdx = Unknown).
Proof.
  unfold columnType, columnType_amended, column_values.
  split.
  - destruct (filter kept_value (map (fun row => cell_at row colIdx) rs)) as [|v0 vs] eqn:Hvals;
      [reflexivity|].
    pose proof (classify_fold Number_str Date_valid (v0 :: vs) 0 0 [] (NoDup_nil _)) as Hf.
    destruct (fold_left (classify_step Number_str Date_valid) (v0 :: vs) (0, 0, []))
      as [[nc dc] u] eqn:E.
    simpl in Hf. destruct Hf as (Hn & Hd & Hu & Hin).
    rewrite Hn, Hd. simpl plus.
    assert (Hperm : Permutation u
                      (nodup string_dec (map (fun v => trim (cell_toString v)) (v0 :: vs)))).
    { apply NoDup_Permutation; [exact Hu|apply NoDup_nodup|].
      intros s. rewrite nodup_In, Hin. simpl. tauto. }
    rewrite (Permutation_length Hperm). reflexivity.
  - intros Hall.
    assert (Hnil : filter kept_value (map (fun row => cell_at row colIdx) rs) = []).
    { induction (map (fun row => cell_at row colIdx) rs) as [|v l IH]; [reflexivity|].
      simpl in Hall |- *. apply andb_true_iff in Hall as [Hv Hl].
      apply negb_true_iff in Hv. rewrite Hv. apply IH, Hl. }
    rewrite Hnil. reflexivity.
Qed.

(** C2 counterexample: a column whose two cells are the empty string.  Its
    non-absent values are [""; ""], over which the claim's decision gives
    categorical (no value is numeric or a date, one distinct value, 1 <=
    min(20, 2)); the code drops [""] values and answers unknown. *)
Lemma columnType_empty_strings_counterexample :
  columnType int_Number_str iso_Date_valid [[CStr ""]; [CStr ""]] 0 = Unknown
  /\ columnType_claim int_Number_str iso_Date_valid [CStr ""; CStr ""] = Categorical.
Proof. split; reflexivity. Qed.

(** C10.  In every reachable state the sort column and the sort direction
    are both set or both unset; [toggleSort] on the sorted column moves
    ascending to descending and descending to unsorted, and on any other
    column sets that column with ascending direction. *)
Theorem toggleSort_cycle (Number_str : string -> option Z) (Date_valid : string -> bool)
    (st : UI) (Hr : reachable Number_str Date_valid st) :
  (sortColumnIndex (view st) = None <-> sortDirection (view st) = None)
  /\ (forall index,
       let v' := view (dispatch Number_str Date_valid (EToggleSort index) st) in
       (sortColumnIndex (view st) = Some index -> sortDirection (view st) = Some Asc ->
          sortColumnIndex v' = Some index /\ sortDirection v' = Some Desc)
       /\ (sortColumnIndex (view st) = Some index -> sortDirection (view st) = Some Desc ->
          sortColumnIndex v' = None /\ sortDirection v' = None)
       /\ (sortColumnIndex (view st) <> Some index ->
          sortColumnIndex v' = Some index /\ sortDirection v' = Some Asc)).
Proof.
  split; [exact (reachable_sort_ok _ _ st Hr)|].
  intros index v'.
  assert (Hv : v' = toggleSort index (view st)).
  { unfold v', dispatch, handle.
    rewrite commit_id by (apply with_view_consistent, (reachable_consistent _ _ _ Hr)).
    reflexivity. }
  rewrite Hv. unfold toggleSort.
  repeat split; intros; simpl in *;
  repeat match goal with
  | H : sortColumnIndex (view st) = _ |- _ => rewrite H in *
  | H : sortDirection (view st) = _ |- _ => rewrite H in *
  end;
  rewrite ?Nat.eqb_refl; simpl; auto;
  destruct (sortColumnIndex (view st)) as [c|] eqn:Ec; simpl; auto;
  destruct (c =? index) eqn:Ei; simpl; auto;
  apply Nat.eqb_eq in Ei; subst; congruence.
Qed.

Lemma toggleSort_cycle_witness :
  sortColumnIndex (view (dispatch int_Number_str iso_Date_valid (EToggleSort 0)
                           (initial int_Number_str iso_Date_valid))) = Some 0
  /\ sortDirection (view (dispatch int_Number_str iso_Date_valid (EToggleSort 0)
                           (initial int_Number_str iso_Date_valid))) = Some Asc.
Proof.
  apply (proj2 (toggleSort_cycle int_Number_str iso_Date_valid _ (reach_init _ _)) 0).
  simpl. discriminate.
Defined.

(** C8.  From any reachable state, selecting a file whose name ends with
    none of [".xlsx"], [".xls"], [".csv"] (case-sensitive) sets the
    unsupported-file-type error, starts no read, and after the commit
    leaves every other part of the state (sheets, file name, view state)
    as it was. *)
Theorem handleFileChange_rejects (Number_str : string -> option Z) (Date_valid : string -> bool)
    (st : UI) (nm : string) (Hr : reachable Number_str Date_valid st)
    (Hx : endsWith nm ".xlsx" = false) (Hs : endsWith nm ".xls" = false)
    (Hc : endsWith nm ".csv" = false) :
  handleFileChange (Some nm) st = (setError (Some msg_unsupported) st, false)
  /\ dispatch Number_str Date_valid (EFileChange (Some nm)) st = setError (Some msg_unsupported) st.
Proof.
  assert (H : handleFileChange (Some nm) st = (setError (Some msg_unsupported) st, false)).
  { unfold handleFileChange. rewrite Hx, Hs, Hc. simpl.
    destruct st; reflexivity. }
  split; [exact H|].
  unfold dispatch, handle. rewrite H. cbn [fst].
  apply commit_id, setError_consistent, (reachable_consistent _ _ _ Hr).
Qed.

Lemma handleFileChange_rejects_witness :
  handleFileChange (Some "report.pdf") (initial int_Number_str iso_Date_valid)
  = (setError (Some msg_unsupported) (initial int_Number_str iso_Date_valid), false).
Proof.
  apply (handleFileChange_rejects int_Number_str iso_Date_valid _ "report.pdf"
           (reach_init _ _)); reflexivity.
Defined.

(** C1 (code bug).  The chart aggregator follows the claim on every sheet
    whose value cells are neither absent nor blank, and gives the claim's
    scenario result [East 13; West 5]; but [Number(null)] is [0], so a row
    whose value cell is absent is not skipped: it adds [0] under its
    category, and a category with no numeric value at all still appears
    (with value 0) where the claim emits nothing. *)
Theorem chartData_absent_value_counted :
  (forall (Number_str : string -> option Z) ci vi rs,
     Forall (fun r => blank_cell (cell_at r vi) = false) rs ->
     groupMap Number_str ci vi rs = fold_left (chart_step_spec Number_str ci vi) rs [])
  /\ chartData int_Number_str
       (Some (mkSheet "Sheet1" ["Region"; "Amount"]
                [[CStr "East"; CNum 10]; [CStr "West"; CNum 5]; [CStr "East"; CNum 3]]))
       (Some 0) (Some 1)
     = [mkDatum "East" 13; mkDatum "West" 5]
  /\ chartData int_Number_str
       (Some (mkSheet "Sheet1" ["Region"; "Amount"] [[CStr "East"; CNull]])) (Some 0) (Some 1)
     = [mkDatum "East" 0]
  /\ chartData_spec int_Number_str [[CStr "East"; CNull]] 0 1 = [].
Proof.
  split; [intros; apply chart_fold_agree; assumption|].
  repeat split; vm_compute; reflexivity.
Qed.

(** C3 (code bug).  The comparator follows the claim (absent cells first
    ascending and last descending, numeric comparison when both cells are
    numbers, case-insensitive string comparison otherwise) for all cells
    that are not blank strings, and sorts the claim's scenario as stated;
    but [Number("")] is [0], so an empty-string cell is compared as the
    number 0: ascending, [-1] sorts before [""], where the claim compares
    the strings and puts [""] first. *)
Theorem compare_cells_blank_string_numeric :
  (forall (Number_str : string -> option Z) dir a b,
     blank_string a = false -> blank_string b = false ->
     compare_cells Number_str dir a b = compare_cells_spec Number_str dir a b)
  /\ sort_rows int_Number_str 0 Asc [[CNull; CNum 1]; [CStr "b"; CNum 2]; [CStr "a"; CNum 3]]
     = [[CNull; CNum 1]; [CStr "a"; CNum 3]; [CStr "b"; CNum 2]]
  /\ sort_rows int_Number_str 0 Asc [[CStr ""]; [CNum (-1)]] = [[CNum (-1)]; [CStr ""]]
  /\ sort_rows_spec int_Number_str 0 Asc [[CStr ""]; [CNum (-1)]] = [[CStr ""]; [CNum (-1)]].
Proof.
  split; [intros; apply compare_cells_agree; assumption|].
  repeat split; vm_compute; reflexivity.
Qed.

(** C7 (code bug).  Every aligned row has exactly as many entries as the
    header array; but [Array.prototype.map] skips holes, so where the raw
    header row has a hole (a blank header cell, which [sheet_to_json] with
    [header: 1] and no [defval] leaves unwritten) the header stays a hole
    instead of [""], and every row gets a hole there instead of [null],
    losing any value the raw row held at that position. *)
Theorem parse_rows_header_hole :
  (forall sheetData,
     Forall (fun r => List.length r = List.length (parse_headers sheetData)) (parse_rows sheetData))
  /\ parse_headers
       [[Val (JStr "Region"); Hole; Val (JStr "Amount")];
        [Val (JStr "East")];
        [Val (JStr "West"); Val (JNum 7); Val (JNum 2)]]
     = [Val "Region"; Hole; Val "Amount"]
  /\ parse_rows
       [[Val (JStr "Region"); Hole; Val (JStr "Amount")];
        [Val (JStr "East")];
        [Val (JStr "West"); Val (JNum 7); Val (JNum 2)]]
     = [[Val (CStr "East"); Hole; Val CNull];
        [Val (CStr "West"); Hole; Val (CNum 2)]].
Proof.
  split; [apply parse_rows_length|].
  split; vm_compute; reflexivity.
Qed.

(** C9 (code bug).  The reset effect depends on [activeSheetIndex] and
    [sheets.length] only.  Loading a second one-sheet workbook while the
    first sheet of a one-sheet workbook is active changes neither, so the
    search string and the sort survive, and the visibility array keeps the
    old sheet's length (the new second column is hidden); only the chart
    axes, whose effect depends on [activeSheet], are recomputed, to the
    new sheet's defaults.  This holds whatever [Number] and [new Date]
    make of the strings. *)
Theorem load_same_sheet_count_keeps_view (Number_str : string -> option Z)
    (Date_valid : string -> bool) :
  let sA := mkSheet "Sheet1" ["Region"] [[CStr "East"]] in
  let sB := mkSheet "Sheet1" ["Region"; "Amount"] [[CStr "East"; CNum 10]] in
  let st := run Number_str Date_valid
              [EFileChange (Some "a.csv"); ELoad (Some [sA]); ESearch "foo"; EToggleSort 0;
               EFileChange (Some "b.csv"); ELoad (Some [sB])]
              (initial Number_str Date_valid) in
  activeSheet st = Some sB
  /\ searchQuery (view st) = "foo"
  /\ sortColumnIndex (view st) = Some 0 /\ sortDirection (view st) = Some Asc
  /\ columnVisibility (view st) = [true]
  /\ chartCategoryIndex (view st) = findIndex Categorical (columnTypes Number_str Date_valid (Some sB))
  /\ chartValueIndex (view st) = findIndex Numeric (columnTypes Number_str Date_valid (Some sB)).
Proof. vm_compute. repeat split. Qed.


(* ================================================================== *)
(** * Further properties of the component *)

(** X1.  [processedRows] only filters and reorders: it is a permutation
    of the rows the search keeps, whatever the sort settings; the row
    counter shows that number, and the table renders the first 200 of
    them. *)
Theorem processedRows_rows (Number_str : string -> option Z) (sh : ParsedSheet)
    (q : string) (c : option nat) (d : option SortDirection) :
  Permutation (processedRows Number_str (Some sh) q c d) (search_rows q (rows sh))
  /\ visibleRowCount (processedRows Number_str (Some sh) q c d)
     = List.length (search_rows q (rows sh))
  /\ List.length (rowsToDisplay (processedRows Number_str (Some sh) q c d))
     = Nat.min 200 (List.length (search_rows q (rows sh)))
  /\ processedRows Number_str None q c d = [].
Proof.
  assert (HP : Permutation (processedRows Number_str (Some sh) q c d) (search_rows q (rows sh))).
  { unfold processedRows. destruct c as [c|], d as [d|]; try apply Permutation_refl.
    unfold sort_rows. apply sort_by_perm. }
  split; [exact HP|]. unfold visibleRowCount, rowsToDisplay.
  rewrite length_firstn, (Permutation_length HP). auto.
Qed.

(** X2.  On a column whose present cells are all read as numbers, or
    none is, sorting ascending puts the rows whose cell is absent first
    and descending puts them last, in their input order in both cases;
    every other row lands in the other block. *)
Theorem sort_rows_absent_placement (Number_str : string -> option Z) (col : nat)
    (rs : list Row) (Hmode : same_mode Number_str col rs = true) :
  (exists rest, sort_rows Number_str col Asc rs
                = (filter (fun r => is_null (cell_at r col)) rs ++ rest)%list
     /\ Forall (fun r => is_null (cell_at r col) = false) rest)
  /\ (exists rest, sort_rows Number_str col Desc rs
                = (rest ++ filter (fun r => is_null (cell_at r col)) rs)%list
     /\ Forall (fun r => is_null (cell_at r col) = false) rest).
Proof.
  split; [apply sort_rows_asc_shape|apply sort_rows_desc_shape].
Qed.

Lemma sort_rows_absent_placement_witness :
  same_mode int_Number_str 0 [[CNum 2]; [CNull]; [CStr "7"]; [CNull]] = true
  /\ exists rest, sort_rows int_Number_str 0 Desc [[CNum 2]; [CNull]; [CStr "7"]; [CNull]]
                  = (rest ++ [[CNull]; [CNull]])%list
     /\ Forall (fun r => is_null (cell_at r 0) = false) rest.
Proof.
  split; [reflexivity|].
  apply (proj2 (sort_rows_absent_placement int_Number_str 0
                  [[CNum 2]; [CNull]; [CStr "7"]; [CNull]] eq_refl)).
Defined.

(** X3.  When every cell of the sort column is present and read as a
    number, sorting ascending orders the rows by that number, smallest
    first, and sorting descending orders them largest first. *)
Theorem sort_rows_numeric_order (Number_str : string -> option Z) (col : nat) (rs : list Row)
    (Hnum : Forall (fun r => is_null (cell_at r col) = false
                             /\ not_NaN Number_str (cell_at r col) = true) rs) :
  StronglySorted (fun a b => (number_or_zero Number_str (cell_at a col)
                              <= number_or_zero Number_str (cell_at b col))%Z)
    (sort_rows Number_str col Asc rs)
  /\ StronglySorted (fun a b => (number_or_zero Number_str (cell_at b col)
                                 <= number_or_zero Number_str (cell_at a col))%Z)
    (sort_rows Number_str col Desc rs).
Proof.
  set (P := fun r : Row => mode_ok Number_str true (cell_at r col)).
  assert (HP : Forall P rs).
  { apply Forall_forall. intros r Hr. rewrite Forall_forall in Hnum.
    right. apply (Hnum r Hr). }
  assert (HS : forall dir, StronglySorted (cmp_le (compare_rows Number_str col dir))
                             (sort_rows Number_str col dir rs)).
  { intros dir. unfold sort_rows.
    apply (sort_by_sorted _ P (compare_rows_anti Number_str dir col)
             (compare_rows_trans Number_str dir col true) rs HP). }
  assert (HQ : forall dir, Forall (fun r => is_null (cell_at r col) = false
                                   /\ not_NaN Number_str (cell_at r col) = true)
                             (sort_rows Number_str col dir rs)).
  { intros dir. unfold sort_rows.
    apply (Permutation_Forall (Permutation_sym (sort_by_perm _ rs))), Hnum. }
  assert (Hcmp : forall a b, is_null (cell_at a col) = false /\ not_NaN Number_str (cell_at a col) = true ->
                   is_null (cell_at b col) = false /\ not_NaN Number_str (cell_at b col) = true ->
                   compare_cells Number_str Asc (cell_at a col) (cell_at b col)
                   = (number_or_zero Number_str (cell_at a col) - number_or_zero Number_str (cell_at b col))%Z).
  { intros a b [Na Ha] [Nb Hb]. unfold not_NaN in Ha, Hb. unfold number_or_zero.
    destruct (Number Number_str (cell_at a col)) as [x|] eqn:Ex; [|discriminate].
    destruct (Number Number_str (cell_at b col)) as [y|] eqn:Ey; [|discriminate].
    apply compare_cells_num; assumption. }
  split.
  - apply (StronglySorted_weaken _ _ _ _ (HS Asc) (HQ Asc)).
    intros a b Ha Hb H. unfold cmp_le, compare_rows in H. rewrite (Hcmp a b Ha Hb) in H. lia.
  - apply (StronglySorted_weaken _ _ _ _ (HS Desc) (HQ Desc)).
    intros a b Ha Hb H. unfold cmp_le, compare_rows in H.
    rewrite compare_cells_desc, (Hcmp a b Ha Hb) in H. lia.
Qed.

Lemma sort_rows_numeric_order_witness :
  Forall (fun r => is_null (cell_at r 0) = false /\ not_NaN int_Number_str (cell_at r 0) = true)
    [[CNum 3]; [CStr " 10 "]; [CNum (-2)]]
  /\ StronglySorted (fun a b => (number_or_zero int_Number_str (cell_at a 0)
                                 <= number_or_zero int_Number_str (cell_at b 0))%Z)
       (sort_rows int_Number_str 0 Asc [[CNum 3]; [CStr " 10 "]; [CNum (-2)]]).
Proof.
  assert (H : Forall (fun r => is_null (cell_at r 0) = false
                               /\ not_NaN int_Number_str (cell_at r 0) = true)
                [[CNum 3]; [CStr " 10 "]; [CNum (-2)]])
    by (repeat constructor).
  split; [exact H|].
  exact (proj1 (sort_rows_numeric_order int_Number_str 0 _ H)).
Defined.

(** X4.  The sort is stable: on a column whose present cells are all read
    as numbers, or none is, a row [x] that comes before a row [y] in the
    input and does not compare greater than it stays before it. *)
Theorem sort_rows_stable (Number_str : string -> option Z) (col : nat) (dir : SortDirection)
    (l1 l2 : list Row) (x y : Row)
    (Hmode : same_mode Number_str col (l1 ++ x :: l2)%list = true)
    (Hy : In y l2) (Hxy : (compare_rows Number_str col dir x y <= 0)%Z) :
  before x y (sort_rows Number_str col dir (l1 ++ x :: l2)%list).
Proof.
  unfold sort_rows. apply sort_by_stable; assumption.
Qed.

Lemma sort_rows_stable_witness :
  same_mode int_Number_str 0 ([[CNum 5; CStr "a"]] ++ [CNum 1; CStr "b"] :: [[CNum 1; CStr "c"]])%list = true
  /\ In [CNum 1; CStr "c"] [[CNum 1; CStr "c"]]
  /\ (compare_rows int_Number_str 0 Desc [CNum 1; CStr "b"] [CNum 1; CStr "c"] <= 0)%Z
  /\ before [CNum 1; CStr "b"] [CNum 1; CStr "c"]
       (sort_rows int_Number_str 0 Desc ([[CNum 5; CStr "a"]] ++ [CNum 1; CStr "b"] :: [[CNum 1; CStr "c"]])%list).
Proof.
  split; [reflexivity|]. split; [left; reflexivity|]. split; [vm_compute; discriminate|].
  apply sort_rows_stable; [reflexivity|left; reflexivity|vm_compute; discriminate].
Defined.

(** X6.  The chart shows at most 25 bars: exactly [min 25 n] for [n]
    groups, sorted by value from largest to smallest; each bar is one of
    the groups, and a group left out has a value no larger than any bar
    shown. *)
Theorem chartData_top (Number_str : string -> option Z) (sh : ParsedSheet) (ci vi : nat) :
  let gm := groupMap Number_str ci vi (rows sh) in
  let out := chartData Number_str (Some sh) (Some ci) (Some vi) in
  List.length out = Nat.min 25 (List.length gm)
  /\ StronglySorted (fun a b => (value b <= value a)%Z) out
  /\ (forall d, In d out -> In (category d, value d) gm)
  /\ (forall k v, In (k, v) gm -> ~ In (mkDatum k v) out ->
        forall d, In d out -> (v <= value d)%Z).
Proof.
  intros gm out.
  destruct (chartData_split Number_str sh ci vi) as (Hout & HP & HS).
  fold gm in Hout, HP, HS. fold out in Hout.
  set (sorted := sort_by (fun a b => (value b - value a)%Z)
                   (map (fun '(k, v) => mkDatum k v) gm)) in *.
  rewrite <- (firstn_skipn 25 sorted) in HS.
  destruct (StronglySorted_app_inv _ _ _ HS) as [HS1 Hcross].
  split; [|split; [|split]].
  - rewrite Hout, length_firstn. unfold sorted. rewrite sort_by_length, length_map. reflexivity.
  - rewrite Hout. exact HS1.
  - intros d Hd. exact (chartData_In_groupMap Number_str sh ci vi d Hd).
  - intros k v Hkv Hnot d Hd.
    pose proof (groupMap_In_sorted Number_str sh ci vi k v Hkv) as Hm. fold gm sorted in Hm.
    rewrite <- (firstn_skipn 25 sorted) in Hm.
    apply in_app_or in Hm as [Hm|Hm]; [rewrite Hout in Hnot; contradiction|].
    rewrite Hout in Hd. exact (Hcross d _ Hd Hm).
Qed.

(** X7.  The chart's categories are distinct.  Each bar's category is a
    non-empty string that some row carries with a numeric value, and its
    value is the sum of [Number(value)] over exactly those rows; when
    there are at most 25 groups, every such category has a bar. *)
Theorem chartData_entries (Number_str : string -> option Z) (sh : ParsedSheet) (ci vi : nat) :
  let out := chartData Number_str (Some sh) (Some ci) (Some vi) in
  NoDup (map category out)
  /\ (forall d, In d out ->
        category d <> ""
        /\ existsb (counted_for Number_str ci vi (category d)) (rows sh) = true
        /\ value d = sumZ (map (fun r => number_or_zero Number_str (cell_at r vi))
                               (filter (counted_for Number_str ci vi (category d)) (rows sh))))
  /\ (forall key, existsb (counted_for Number_str ci vi key) (rows sh) = true ->
        List.length (groupMap Number_str ci vi (rows sh)) <= 25 ->
        exists d, In d out /\ category d = key).
Proof.
  intros out.
  destruct (chartData_split Number_str sh ci vi) as (Hout & HP & _). fold out in Hout.
  set (gm := groupMap Number_str ci vi (rows sh)) in *.
  set (sorted := sort_by (fun a b => (value b - value a)%Z)
                   (map (fun '(k, v) => mkDatum k v) gm)) in *.
  assert (Hnd : NoDup (map fst gm)) by (apply groupMap_NoDup; constructor).
  assert (Hget : forall key, map_get key gm
            = if existsb (counted_for Number_str ci vi key) (rows sh)
              then Some (0 + sumZ (map (fun r => number_or_zero Number_str (cell_at r vi))
                                        (filter (counted_for Number_str ci vi key) (rows sh))))%Z
              else None)
    by (intros key; apply map_get_fold).
  split; [|split].
  - rewrite Hout, <- firstn_map. apply NoDup_firstn_list.
    apply (Permutation_NoDup (Permutation_sym (Permutation_map category HP))).
    rewrite map_map.
    replace (map (fun x => category (let '(k, v) := x in mkDatum k v)) gm) with (map fst gm);
      [exact Hnd|].
    apply map_ext. intros [k v]. reflexivity.
  - intros d Hd.
    pose proof (chartData_In_groupMap Number_str sh ci vi d Hd) as Hin. fold gm in Hin.
    pose proof (map_get_In _ _ _ Hnd Hin) as Hg. rewrite Hget in Hg.
    destruct (existsb _ (rows sh)) eqn:Ee; [|discriminate].
    injection Hg as Hg. split; [|split; [reflexivity|lia]].
    apply existsb_exists in Ee as (r & _ & Hr). exact (counted_for_key _ _ _ _ _ Hr).
  - intros key Hk Hlen.
    pose proof (Hget key) as Hg. rewrite Hk in Hg.
    apply map_get_some in Hg.
    pose proof (groupMap_In_sorted Number_str sh ci vi _ _ Hg) as Hm. fold gm sorted in Hm.
    exists (mkDatum key (0 + sumZ (map (fun r => number_or_zero Number_str (cell_at r vi))
                                     (filter (counted_for Number_str ci vi key) (rows sh))))%Z).
    split; [|reflexivity].
    rewrite Hout, firstn_all2; [exact Hm|].
    unfold sorted. rewrite sort_by_length, length_map. exact Hlen.
Qed.


(** X8.  The default-axes effect, on an active sheet with at least one
    column, sets the category axis to the first categorical column and
    the value axis to the first numeric column ([null] when there is
    none), so the two axes are never the same column; it changes no other
    view field, and on a sheet without columns it changes nothing. *)
Theorem chart_effect_defaults (Number_str : string -> option Z) (Date_valid : string -> bool)
    (st : UI) (sh : ParsedSheet) (v : View) (Hs : activeSheet st = Some sh) :
  let cts := columnTypes Number_str Date_valid (Some sh) in
  let v' := chart_effect Number_str Date_valid st v in
  List.length cts = List.length (headers sh)
  /\ (headers sh = [] -> v' = v)
  /\ (headers sh <> [] ->
        (forall i, chartCategoryIndex v' = Some i ->
           nth_error cts i = Some Categorical
           /\ forall j, j < i -> nth_error cts j <> Some Categorical)
        /\ (chartCategoryIndex v' = None <-> ~ In Categorical cts)
        /\ (forall i, chartValueIndex v' = Some i ->
           nth_error cts i = Some Numeric
           /\ forall j, j < i -> nth_error cts j <> Some Numeric)
        /\ (chartValueIndex v' = None <-> ~ In Numeric cts)
        /\ (chartCategoryIndex v' = chartValueIndex v' -> chartCategoryIndex v' = None)
        /\ searchQuery v' = searchQuery v /\ sortColumnIndex v' = sortColumnIndex v
        /\ sortDirection v' = sortDirection v /\ columnVisibility v' = columnVisibility v
        /\ activeTab v' = activeTab v).
Proof.
  intros cts v'.
  assert (Hlen : List.length cts = List.length (headers sh)) by apply columnTypes_length.
  assert (Hv' : v' = match cts with
                     | [] => v
                     | _ => setChartAxes (findIndex Categorical cts) (findIndex Numeric cts) v
                     end).
  { unfold v'. rewrite chart_effect_view, Hs. unfold cts.
    destruct (columnTypes Number_str Date_valid (Some sh)); reflexivity. }
  clearbody cts v'.
  split; [exact Hlen|]. split.
  - intros Hh. rewrite Hv'. destruct cts; [reflexivity|].
    rewrite Hh in Hlen. discriminate.
  - intros Hh.
    assert (Hv2 : v' = setChartAxes (findIndex Categorical cts) (findIndex Numeric cts) v).
    { rewrite Hv'. destruct cts; [|reflexivity].
      destruct (headers sh); [contradiction|discriminate]. }
    rewrite Hv2. clear Hv' Hv2. cbn [chartCategoryIndex chartValueIndex searchQuery sortColumnIndex
                   sortDirection columnVisibility activeTab setChartAxes].
    split; [apply findIndex_Some|]. split; [apply findIndex_None|].
    split; [apply findIndex_Some|]. split; [apply findIndex_None|].
    split; [|repeat split].
    destruct (findIndex Categorical cts) as [i|] eqn:E1; [|reflexivity].
    intros E2. symmetry in E2.
    destruct (findIndex_Some _ _ _ E1) as [H1 _]. destruct (findIndex_Some _ _ _ E2) as [H2 _].
    congruence.
Qed.

Lemma chart_effect_defaults_witness :
  activeSheet (mkUI [mkSheet "S" ["Region"; "Amount"] [[CStr "East"; CNum 10]]] 0 0 None None
                 (mkView "" None None [true; true] TabTable None None) (0, 1) (Some (0, 0)))
    = Some (mkSheet "S" ["Region"; "Amount"] [[CStr "East"; CNum 10]])
  /\ List.length (columnTypes int_Number_str iso_Date_valid
                   (Some (mkSheet "S" ["Region"; "Amount"] [[CStr "East"; CNum 10]])))
     = List.length (headers (mkSheet "S" ["Region"; "Amount"] [[CStr "East"; CNum 10]])).
Proof.
  split; [reflexivity|].
  exact (proj1 (chart_effect_defaults int_Number_str iso_Date_valid
                  (mkUI [mkSheet "S" ["Region"; "Amount"] [[CStr "East"; CNum 10]]] 0 0 None None
                     (mkView "" None None [true; true] TabTable None None) (0, 1) (Some (0, 0)))
                  (mkSheet "S" ["Region"; "Amount"] [[CStr "East"; CNum 10]])
                  (mkView "" None None [true; true] TabTable None None) eq_refl)).
Defined.

(** X9.  Selecting another sheet tab resets the view: the search is
    cleared, there is no sort, every column of the new sheet is visible,
    the table tab is shown, and the chart axes are the new sheet's
    defaults; the workbook, file name and error are kept. *)
Theorem selectSheet_resets_view (Number_str : string -> option Z) (Date_valid : string -> bool)
    (st : UI) (i : nat) (Hr : reachable Number_str Date_valid st)
    (Hi : i <> activeSheetIndex st) :
  let st' := dispatch Number_str Date_valid (ESelectSheet i) st in
  let cts := columnTypes Number_str Date_valid (nth_error (sheets st) i) in
  sheets st' = sheets st /\ activeSheetIndex st' = i
  /\ fileName st' = fileName st /\ error st' = error st
  /\ searchQuery (view st') = "" /\ sortColumnIndex (view st') = None
  /\ sortDirection (view st') = None
  /\ columnVisibility (view st')
     = match nth_error (sheets st) i with
       | Some sh => repeat true (List.length (headers sh))
       | None => []
       end
  /\ activeTab (view st') = TabTable
  /\ chartCategoryIndex (view st') = findIndex Categorical cts
  /\ chartValueIndex (view st') = findIndex Numeric cts.
Proof.
  intros st' cts. subst st' cts.
  destruct (reachable_consistent _ _ _ Hr) as [Hd1 Hd2].
  set (s1 := setActiveSheetIndex i st).
  assert (Hp : pair_eqb (deps_reset s1) (activeSheetIndex s1, List.length (sheets s1)) = false).
  { change (pair_eqb (deps_reset st) (i, List.length (sheets st)) = false).
    rewrite Hd1. unfold pair_eqb. cbn [fst snd].
    destruct (Nat.eqb_spec (activeSheetIndex st) i); [congruence|reflexivity]. }
  assert (Hc : activeSheet s1 = None
               \/ opt_pair_eqb (deps_chart s1) (activeSheet_id s1) = false).
  { destruct (activeSheet s1) eqn:Ea; [right|left; reflexivity].
    change (opt_pair_eqb (deps_chart st)
              (match activeSheet s1 with
               | Some _ => Some (generation st, i)
               | None => None
               end) = false).
    rewrite Hd2, Ea. unfold activeSheet_id.
    destruct (activeSheet st); [|reflexivity].
    unfold opt_pair_eqb, pair_eqb. cbn [fst snd]. rewrite Nat.eqb_refl.
    destruct (Nat.eqb_spec (activeSheetIndex st) i); [congruence|reflexivity]. }
  assert (Hv : view (dispatch Number_str Date_valid (ESelectSheet i) st)
               = chart_effect Number_str Date_valid s1 (reset_effect s1 (view st))).
  { change (view (commit Number_str Date_valid s1) = chart_effect Number_str Date_valid s1 (reset_effect s1 (view s1))).
    rewrite commit_view, Hp. apply chart_skip_or_run. exact Hc. }
  destruct (chart_effect_axes Number_str Date_valid s1 (reset_effect s1 (view st)) eq_refl eq_refl)
    as [A1 A2].
  destruct (chart_effect_fields Number_str Date_valid s1 (reset_effect s1 (view st)))
    as (F1 & F2 & F3 & F4 & F5).
  rewrite Hv. repeat split; [rewrite F1|rewrite F2|rewrite F3|rewrite F4|rewrite F5|rewrite A1|rewrite A2];
    reflexivity.
Qed.

Lemma selectSheet_resets_view_witness :
  reachable int_Number_str iso_Date_valid
    (run int_Number_str iso_Date_valid
         [EFileChange (Some "a.xlsx");
          ELoad (Some [mkSheet "S1" ["Region"] [[CStr "East"]];
                       mkSheet "S2" ["Region"; "Amount"] [[CStr "East"; CNum 10]]]);
          ESearch "ea"]
         (initial int_Number_str iso_Date_valid))
  /\ 1 <> activeSheetIndex
       (run int_Number_str iso_Date_valid
         [EFileChange (Some "a.xlsx");
          ELoad (Some [mkSheet "S1" ["Region"] [[CStr "East"]];
                       mkSheet "S2" ["Region"; "Amount"] [[CStr "East"; CNum 10]]]);
          ESearch "ea"]
         (initial int_Number_str iso_Date_valid))
  /\ searchQuery (view (dispatch int_Number_str iso_Date_valid (ESelectSheet 1)
       (run int_Number_str iso_Date_valid
         [EFileChange (Some "a.xlsx");
          ELoad (Some [mkSheet "S1" ["Region"] [[CStr "East"]];
                       mkSheet "S2" ["Region"; "Amount"] [[CStr "East"; CNum 10]]]);
          ESearch "ea"]
         (initial int_Number_str iso_Date_valid)))) = "".
Proof.
  assert (Hr : reachable int_Number_str iso_Date_valid
    (run int_Number_str iso_Date_valid
         [EFileChange (Some "a.xlsx");
          ELoad (Some [mkSheet "S1" ["Region"] [[CStr "East"]];
                       mkSheet "S2" ["Region"; "Amount"] [[CStr "East"; CNum 10]]]);
          ESearch "ea"]
         (initial int_Number_str iso_Date_valid))).
  { cbn [run]. repeat apply reach_step. apply reach_init. }
  assert (Hi : 1 <> activeSheetIndex
    (run int_Number_str iso_Date_valid
         [EFileChange (Some "a.xlsx");
          ELoad (Some [mkSheet "S1" ["Region"] [[CStr "East"]];
                       mkSheet "S2" ["Region"; "Amount"] [[CStr "East"; CNum 10]]]);
          ESearch "ea"]
         (initial int_Number_str iso_Date_valid)))
    by (vm_compute; discriminate).
  split; [exact Hr|]. split; [exact Hi|].
  exact (proj1 (proj2 (proj2 (proj2 (proj2 (selectSheet_resets_view int_Number_str iso_Date_valid
                                                _ 1 Hr Hi)))))).
Defined.

(** X10.  After a workbook loads, its sheets are shown with the first
    one active, and the file name and error are kept.  When the first
    sheet has columns, the chart axes are its defaults.  When the active
    index or the sheet count changes, the whole view is reset; when
    neither does, search, sort, column visibility and tab are kept. *)
Theorem load_success_view (Number_str : string -> option Z) (Date_valid : string -> bool)
    (st : UI) (ps : list ParsedSheet) (Hr : reachable Number_str Date_valid st) :
  let st' := dispatch Number_str Date_valid (ELoad (Some ps)) st in
  let cts := columnTypes Number_str Date_valid (nth_error ps 0) in
  sheets st' = ps /\ activeSheetIndex st' = 0
  /\ fileName st' = fileName st /\ error st' = error st
  /\ (cts <> [] -> chartCategoryIndex (view st') = findIndex Categorical cts
                  /\ chartValueIndex (view st') = findIndex Numeric cts)
  /\ ((activeSheetIndex st, List.length (sheets st)) <> (0, List.length ps) ->
        searchQuery (view st') = "" /\ sortColumnIndex (view st') = None
        /\ sortDirection (view st') = None
        /\ columnVisibility (view st')
           = match nth_error ps 0 with
             | Some sh => repeat true (List.length (headers sh))
             | None => []
             end
        /\ activeTab (view st') = TabTable
        /\ chartCategoryIndex (view st') = findIndex Categorical cts
        /\ chartValueIndex (view st') = findIndex Numeric cts)
  /\ ((activeSheetIndex st, List.length (sheets st)) = (0, List.length ps) ->
        searchQuery (view st') = searchQuery (view st)
        /\ sortColumnIndex (view st') = sortColumnIndex (view st)
        /\ sortDirection (view st') = sortDirection (view st)
        /\ columnVisibility (view st') = columnVisibility (view st)
        /\ activeTab (view st') = activeTab (view st)).
Proof.
  intros st' cts. subst st' cts.
  destruct (reachable_consistent _ _ _ Hr) as [Hd1 Hd2].
  set (s1 := onload (Some ps) st).
  assert (Hc : activeSheet s1 = None
               \/ opt_pair_eqb (deps_chart s1) (activeSheet_id s1) = false).
  { destruct (activeSheet s1) eqn:Ea; [right|left; reflexivity].
    change (opt_pair_eqb (deps_chart st)
              (match activeSheet s1 with
               | Some _ => Some (S (generation st), 0)
               | None => None
               end) = false).
    rewrite Hd2, Ea. unfold activeSheet_id.
    destruct (activeSheet st); [|reflexivity].
    unfold opt_pair_eqb, pair_eqb. cbn [fst snd].
    destruct (Nat.eqb_spec (generation st) (S (generation st))); [lia|reflexivity]. }
  assert (Hv : view (dispatch Number_str Date_valid (ELoad (Some ps)) st)
               = chart_effect Number_str Date_valid s1
                   (if pair_eqb (deps_reset st) (0, List.length ps) then view st
                    else reset_effect s1 (view st))).
  { change (view (commit Number_str Date_valid s1)
            = chart_effect Number_str Date_valid s1
                (if pair_eqb (deps_reset s1) (activeSheetIndex s1, List.length (sheets s1))
                 then view s1 else reset_effect s1 (view s1))).
    rewrite commit_view. apply chart_skip_or_run. exact Hc. }
  split; [reflexivity|]. split; [reflexivity|]. split; [reflexivity|]. split; [reflexivity|].
  split; [|split].
  - intros Hne. rewrite Hv, chart_effect_view.
    change (activeSheet s1) with (nth_error ps 0).
    destruct (columnTypes Number_str Date_valid (nth_error ps 0)); [contradiction|].
    split; reflexivity.
  - intros Hne.
    assert (Hv1 : (if pair_eqb (deps_reset st) (0, List.length ps) then view st
                   else reset_effect s1 (view st)) = reset_effect s1 (view st)).
    { rewrite Hd1.
      destruct (pair_eqb (activeSheetIndex st, List.length (sheets st)) (0, List.length ps)) eqn:E;
        [|reflexivity].
      apply pair_eqb_eq in E. contradiction. }
    rewrite Hv, Hv1.
    destruct (chart_effect_axes Number_str Date_valid s1 (reset_effect s1 (view st)) eq_refl eq_refl)
      as [A1 A2].
    destruct (chart_effect_fields Number_str Date_valid s1 (reset_effect s1 (view st)))
      as (F1 & F2 & F3 & F4 & F5).
    repeat split; [rewrite F1|rewrite F2|rewrite F3|rewrite F4|rewrite F5|rewrite A1|rewrite A2];
      reflexivity.
  - intros Heq.
    assert (Hv1 : (if pair_eqb (deps_reset st) (0, List.length ps) then view st
                   else reset_effect s1 (view st)) = view st).
    { rewrite Hd1, Heq, pair_eqb_refl. reflexivity. }
    rewrite Hv, Hv1.
    destruct (chart_effect_fields Number_str Date_valid s1 (view st)) as (F1 & F2 & F3 & F4 & F5).
    repeat split; assumption.
Qed.

Lemma load_success_view_witness :
  reachable int_Number_str iso_Date_valid
    (dispatch int_Number_str iso_Date_valid (EFileChange (Some "a.csv"))
       (initial int_Number_str iso_Date_valid))
  /\ sheets (dispatch int_Number_str iso_Date_valid
               (ELoad (Some [mkSheet "S" ["Region"; "Amount"] [[CStr "East"; CNum 10]]]))
               (dispatch int_Number_str iso_Date_valid (EFileChange (Some "a.csv"))
                  (initial int_Number_str iso_Date_valid)))
     = [mkSheet "S" ["Region"; "Amount"] [[CStr "East"; CNum 10]]].
Proof.
  assert (Hr : reachable int_Number_str iso_Date_valid
                 (dispatch int_Number_str iso_Date_valid (EFileChange (Some "a.csv"))
                    (initial int_Number_str iso_Date_valid)))
    by (apply reach_step, reach_init).
  split; [exact Hr|].
  exact (proj1 (load_success_view int_Number_str iso_Date_valid _
                  [mkSheet "S" ["Region"; "Amount"] [[CStr "East"; CNum 10]]] Hr)).
Defined.

(** X11.  A file with an accepted extension that fails to parse leaves
    the loaded workbook, the active sheet and the whole view as they
    were; only the file name (set to the new file) and the parse error
    change. *)
Theorem failed_parse_keeps_workbook (Number_str : string -> option Z) (Date_valid : string -> bool)
    (st : UI) (nm : string) (Hr : reachable Number_str Date_valid st)
    (Hok : (endsWith nm ".xlsx" || endsWith nm ".xls" || endsWith nm ".csv")%bool = true) :
  let st' := run Number_str Date_valid [EFileChange (Some nm); ELoad None] st in
  sheets st' = sheets st /\ activeSheetIndex st' = activeSheetIndex st
  /\ view st' = view st /\ fileName st' = Some nm /\ error st' = Some msg_parse.
Proof.
  intros st'. subst st'.
  pose proof (reachable_consistent _ _ _ Hr) as Hc.
  assert (Hh : handleFileChange (Some nm) st = (setFileName (Some nm) (setError None st), true)).
  { revert Hok. unfold handleFileChange.
    destruct (endsWith nm ".xlsx"), (endsWith nm ".xls"), (endsWith nm ".csv");
      simpl; intros Hok; try discriminate; reflexivity. }
  assert (H1 : dispatch Number_str Date_valid (EFileChange (Some nm)) st
               = setFileName (Some nm) (setError None st)).
  { unfold dispatch, handle. rewrite Hh. cbn [fst]. apply commit_id. exact Hc. }
  cbn [run]. rewrite H1.
  assert (H2 : dispatch Number_str Date_valid (ELoad None) (setFileName (Some nm) (setError None st))
               = setError (Some msg_parse) (setFileName (Some nm) (setError None st))).
  { unfold dispatch, handle, onload. apply commit_id. exact Hc. }
  rewrite H2. repeat split.
Qed.

Lemma failed_parse_keeps_workbook_witness :
  (endsWith "data.xls" ".xlsx" || endsWith "data.xls" ".xls" || endsWith "data.xls" ".csv")%bool = true
  /\ error (run int_Number_str iso_Date_valid [EFileChange (Some "data.xls"); ELoad None]
              (initial int_Number_str iso_Date_valid)) = Some msg_parse.
Proof.
  assert (Hok : (endsWith "data.xls" ".xlsx" || endsWith "data.xls" ".xls"
                 || endsWith "data.xls" ".csv")%bool = true) by reflexivity.
  split; [exact Hok|].
  exact (proj2 (proj2 (proj2 (proj2 (failed_parse_keeps_workbook int_Number_str iso_Date_valid
                                         _ "data.xls" (reach_init _ _) Hok))))).
Defined.

(** X12.  Choosing a file with an accepted extension clears the error,
    records the file name and starts a read, touching nothing else;
    cancelling the file dialog only clears the error and starts no read. *)
Theorem handleFileChange_accepts (Number_str : string -> option Z) (Date_valid : string -> bool)
    (st : UI) (nm : string) (Hr : reachable Number_str Date_valid st)
    (Hok : (endsWith nm ".xlsx" || endsWith nm ".xls" || endsWith nm ".csv")%bool = true) :
  handleFileChange (Some nm) st = (setFileName (Some nm) (setError None st), true)
  /\ dispatch Number_str Date_valid (EFileChange (Some nm)) st = setFileName (Some nm) (setError None st)
  /\ handleFileChange None st = (setError None st, false)
  /\ dispatch Number_str Date_valid (EFileChange None) st = setError None st.
Proof.
  pose proof (reachable_consistent _ _ _ Hr) as Hc.
  assert (Hh : handleFileChange (Some nm) st = (setFileName (Some nm) (setError None st), true)).
  { revert Hok. unfold handleFileChange.
    destruct (endsWith nm ".xlsx"), (endsWith nm ".xls"), (endsWith nm ".csv");
      simpl; intros Hok; try discriminate; reflexivity. }
  split; [exact Hh|]. split.
  - unfold dispatch, handle. rewrite Hh. cbn [fst]. apply commit_id. exact Hc.
  - split; [reflexivity|]. unfold dispatch, handle. cbn [fst handleFileChange].
    apply commit_id. exact Hc.
Qed.

Lemma handleFileChange_accepts_witness :
  (endsWith "sales.csv" ".xlsx" || endsWith "sales.csv" ".xls" || endsWith "sales.csv" ".csv")%bool = true
  /\ snd (handleFileChange (Some "sales.csv") (initial int_Number_str iso_Date_valid)) = true.
Proof.
  assert (Hok : (endsWith "sales.csv" ".xlsx" || endsWith "sales.csv" ".xls"
                 || endsWith "sales.csv" ".csv")%bool = true) by reflexivity.
  split; [exact Hok|].
  rewrite (proj1 (handleFileChange_accepts int_Number_str iso_Date_valid _ "sales.csv"
                    (reach_init _ _) Hok)).
  reflexivity.
Defined.

(** X13.  In every reachable state the recorded file name is absent or
    ends with [".xlsx"], [".xls"] or [".csv"], and the error message is
    absent, the unsupported-file message or the parse-failure message. *)
Theorem reachable_fileName_error (Number_str : string -> option Z) (Date_valid : string -> bool)
    (st : UI) (Hr : reachable Number_str Date_valid st) :
  (fileName st = None
   \/ exists nm, fileName st = Some nm
                 /\ (endsWith nm ".xlsx" || endsWith nm ".xls" || endsWith nm ".csv")%bool = true)
  /\ (error st = None \/ error st = Some msg_unsupported \/ error st = Some msg_parse).
Proof.
  induction Hr as [|e st Hr IH]; [split; left; reflexivity|].
  destruct (commit_fileName_error Number_str Date_valid (handle e st)) as [Ef Ee].
  unfold dispatch. rewrite Ef, Ee.
  destruct e as [i|q|i|i| |t|i|i|f|r]; cbn [handle]; try exact IH.
  - destruct (activeSheet st); exact IH.
  - unfold handleFileChange. destruct f as [nm|].
    + destruct (negb (endsWith nm ".xlsx") && negb (endsWith nm ".xls")
                && negb (endsWith nm ".csv"))%bool eqn:Ec;
        cbn [fst setError setFileName fileName error].
      * split; [exact (proj1 IH)|right; left; reflexivity].
      * split; [|left; reflexivity]. right. exists nm. split; [reflexivity|].
        destruct (endsWith nm ".xlsx"), (endsWith nm ".xls"), (endsWith nm ".csv");
          simpl in Ec |- *; congruence.
    + cbn [fst setError fileName error]. split; [exact (proj1 IH)|left; reflexivity].
  - destruct r as [ps|]; cbn [onload setError setActiveSheetIndex setSheets fileName error];
      [exact IH|].
    split; [exact (proj1 IH)|right; right; reflexivity].
Qed.

Lemma reachable_fileName_error_witness :
  reachable int_Number_str iso_Date_valid
    (dispatch int_Number_str iso_Date_valid (EFileChange (Some "notes.txt"))
       (initial int_Number_str iso_Date_valid))
  /\ (error (dispatch int_Number_str iso_Date_valid (EFileChange (Some "notes.txt"))
               (initial int_Number_str iso_Date_valid)) = None
      \/ error (dispatch int_Number_str iso_Date_valid (EFileChange (Some "notes.txt"))
                  (initial int_Number_str iso_Date_valid)) = Some msg_unsupported
      \/ error (dispatch int_Number_str iso_Date_valid (EFileChange (Some "notes.txt"))
                  (initial int_Number_str iso_Date_valid)) = Some msg_parse).
Proof.
  assert (Hr : reachable int_Number_str iso_Date_valid
                 (dispatch int_Number_str iso_Date_valid (EFileChange (Some "notes.txt"))
                    (initial int_Number_str iso_Date_valid)))
    by (apply reach_step, reach_init).
  split; [exact Hr|].
  exact (proj2 (reachable_fileName_error int_Number_str iso_Date_valid _ Hr)).
Defined.



(** X15.  For a row as long as the header row, the table's visible body
    cells line up with its visible header cells: pairing them gives
    exactly the visible (header, cell) pairs, and there are as many of
    each; when every column is visible, all headers and cells are shown. *)
Theorem table_cells_under_headers (sh : ParsedSheet) (cv : list bool) (r : Row)
    (Hlen : List.length r = List.length (headers sh)) :
  combine (visibleHeaders (Some sh) cv) (filter_visible cv 0 r)
    = filter_visible cv 0 (combine (headers sh) r)
  /\ List.length (visibleHeaders (Some sh) cv) = List.length (filter_visible cv 0 r)
  /\ (cv = repeat true (List.length (headers sh)) ->
        visibleHeaders (Some sh) cv = headers sh /\ filter_visible cv 0 r = r)
  /\ visibleHeaders None cv = [].
Proof.
  unfold visibleHeaders.
  split; [apply combine_filter_visible; symmetry; exact Hlen|].
  split; [apply filter_visible_length; symmetry; exact Hlen|].
  split; [|reflexivity].
  intros ->. split; apply filter_visible_all; lia.
Qed.

Lemma table_cells_under_headers_witness :
  List.length [CStr "East"; CNum 10] = List.length (headers (mkSheet "S" ["Region"; "Amount"] []))
  /\ List.length (visibleHeaders (Some (mkSheet "S" ["Region"; "Amount"] [])) [false; true])
     = List.length (filter_visible [false; true] 0 [CStr "East"; CNum 10]).
Proof.
  assert (H : List.length [CStr "East"; CNum 10]
              = List.length (headers (mkSheet "S" ["Region"; "Amount"] []))) by reflexivity.
  split; [exact H|].
  exact (proj1 (proj2 (table_cells_under_headers (mkSheet "S" ["Region"; "Amount"] [])
                         [false; true] _ H))).
Defined.
